(** * argononed: fan-curve decision engine and fan controller

    A shallow embedding of [argononed.py] (Argon ONE V3 fan control for the
    Raspberry Pi 5) and the properties of its step table, its hysteresis
    rule, its controller, its service loop and its command dispatch.

    Conventions of the embedding, and its limits.
    - A Python [float] temperature is a rational ([Q]): every finite double
      is one, and the comparisons the program makes between a temperature
      and a threshold are exact.  Float arithmetic is exact here: the
      program rounds [threshold - 4.0], [threshold + 4.0] and
      [millidegrees / 1000.0] to a double, which this model does not; over
      thresholds that are integers, as those of the default table, the two
      agree.  A threshold that is [nan] or infinite is outside the model:
      [parse_lines] says so with [None].  Speeds are Python [int]s, hence
      [Z].
    - An [int | None] is an [option Z].
    - Text is a [string] of bytes, read as ASCII.  [Py.strip], [Py.upper]
      and [Py.int] are those of Python on ASCII text ([is_ascii]); Python
      also knows the white space, letters and digits of Unicode, so a
      statement that depends on a text being rejected, or left as it is,
      assumes the text ASCII.
    - What the program does to the outside (bus, state file, standard
      output) is recorded in an explicit [World]; what the outside answers
      (does the bus write succeed, what does the sensor file hold) is an
      argument of the call that asks.  A [print] is recorded as the event of
      its call; a [print] that raises is not modelled.
    - A raised exception is the [Raised] case of [outcome]. *)

From Stdlib Require Import ZArith QArith Bool List String Ascii Lia Lqa.
From Stdlib Require Import DecimalString DecimalPos Permutation Sorted.
Import ListNotations.

Open Scope Z_scope.

(** ** Constants (lines 20-28) *)

Definition I2C_BUS : Z := 1.
Definition I2C_ADDR : Z := 26.   (* 0x1A *)
Definition FAN_REG : Z := 128.   (* 0x80 *)
Definition HYSTERESIS : Q := 4.

(** ** Python built-ins used by the program *)

Module Py.

Inductive exn : Type := RuntimeError | OSError | IndexError | ValueError.

(** How a call ends: it returns a value or it raises. *)
Inductive outcome (A : Type) : Type :=
| Returned (a : A)
| Raised (e : exn).
Arguments Returned {A} a.
Arguments Raised {A} e.

(** [str.strip()] with no argument removes white space at both ends; the
    ASCII white space of Python is TAB, LF, VT, FF, CR, FS, GS, RS, US and
    the space. *)
Definition is_space (c : ascii) : bool :=
  let n := nat_of_ascii c in
  ((9 <=? n) && (n <=? 13) || (28 <=? n) && (n <=? 32))%nat.

Fixpoint lstrip (s : string) : string :=
  match s with
  | EmptyString => EmptyString
  | String c s' => if is_space c then lstrip s' else s
  end.

Fixpoint rstrip (s : string) : string :=
  match s with
  | EmptyString => EmptyString
  | String c s' =>
      match rstrip s' with
      | EmptyString => if is_space c then EmptyString else String c EmptyString
      | r => String c r
      end
  end.

Definition strip (s : string) : string := rstrip (lstrip s).

(** [str.upper()] on ASCII letters. *)
Definition upper_char (c : ascii) : ascii :=
  let n := nat_of_ascii c in
  if ((97 <=? n) && (n <=? 122))%nat then ascii_of_nat (n - 32) else c.

Fixpoint upper (s : string) : string :=
  match s with
  | EmptyString => EmptyString
  | String c s' => String (upper_char c) (upper s')
  end.

(** [s.startswith("#")]. *)
Definition startswith_hash (s : string) : bool :=
  match s with
  | String c _ => Ascii.eqb c "#"
  | EmptyString => false
  end.

(** [s.split(sep)] for a one-character separator: the pieces between the
    occurrences of [sep], empty pieces included. *)
Fixpoint split (sep : ascii) (s : string) : list string :=
  match s with
  | EmptyString => [EmptyString]
  | String c s' =>
      if Ascii.eqb c sep then EmptyString :: split sep s'
      else match split sep s' with
           | p :: ps => String c p :: ps
           | [] => [String c EmptyString]
           end
  end.

Definition digit_of (c : ascii) : option Z :=
  let n := nat_of_ascii c in
  if ((48 <=? n) && (n <=? 57))%nat then Some (Z.of_nat (n - 48)) else None.

(** The digits of a decimal literal after its sign: one digit at least,
    and single underscores between digits only.  [prev_digit] tells
    whether the character before was a digit; [acc] is the value and [n]
    the number of digits read so far. *)
Fixpoint int_digits (s : string) (prev_digit : bool) (acc : Z) (n : nat)
  : option (Z * nat) :=
  match s with
  | EmptyString => if prev_digit then Some (acc, n) else None
  | String c s' =>
      match digit_of c with
      | Some d => int_digits s' true (10 * acc + d) (S n)
      | None =>
          if Ascii.eqb c "_" && prev_digit
          then int_digits s' false acc n
          else None
      end
  end.

(** The default limit of CPython (3.11 and later) on the number of digits
    of a string converted to [int]. *)
Definition int_max_str_digits : nat := 4300.

Definition int_unsigned (s : string) : option Z :=
  match int_digits s false 0 0 with
  | Some (v, n) => if (n <=? int_max_str_digits)%nat then Some v else None
  | None => None
  end.

(** The white space [int] skips around an ASCII literal: TAB, LF, VT, FF,
    CR and the space, and not FS, GS, RS, US, which [str.strip] removes. *)
Definition is_int_space (c : ascii) : bool :=
  let n := nat_of_ascii c in
  ((9 <=? n) && (n <=? 13) || (n =? 32))%nat.

Fixpoint int_lstrip (s : string) : string :=
  match s with
  | EmptyString => EmptyString
  | String c s' => if is_int_space c then int_lstrip s' else s
  end.

Fixpoint int_rstrip (s : string) : string :=
  match s with
  | EmptyString => EmptyString
  | String c s' =>
      match int_rstrip s' with
      | EmptyString => if is_int_space c then EmptyString else String c EmptyString
      | r => String c r
      end
  end.

Definition int_strip (s : string) : string := int_rstrip (int_lstrip s).

(** [int(s)] for an ASCII string [s]: the white space of [is_int_space]
    around is ignored, then an optional sign, then the digits; [None]
    where Python raises [ValueError]. *)
Definition int (s : string) : option Z :=
  match int_strip s with
  | String "-" r => option_map Z.opp (int_unsigned r)
  | String "+" r => int_unsigned r
  | r => int_unsigned r
  end.

(** A text of ASCII characters only.  On such texts [strip], [upper] and
    [int] are those of Python; beyond them Python also knows the white
    space, the letters and the digits of Unicode, which these do not. *)
Fixpoint is_ascii (s : string) : bool :=
  match s with
  | EmptyString => true
  | String c s' => (nat_of_ascii c <? 128)%nat && is_ascii s'
  end.

(** [str(n)] for an [int]. *)
Definition str (n : Z) : string := NilZero.string_of_int (Z.to_int n).

End Py.

Import Py.

(** ** The step table (lines 31-34) *)

Record Step : Type := mkStep { temp_c : Q; speed : Z }.

(** The table [parse_conf] returns when the configuration file is absent
    (line 48). *)
Definition default_steps : list Step :=
  [ mkStep 45 20; mkStep 50 35; mkStep 55 55; mkStep 60 75; mkStep 65 100 ].

(** Strict comparison of rationals as a boolean: [a < b] is [not (b <= a)]. *)
Definition Qltb (a b : Q) : bool := negb (Qle_bool b a).

(** ** [read_cpu_temp] (lines 37-42) *)

(** [int(...) / 1000.0] raises [OverflowError] when the integer does not fit
    a double, which is from [2^1024 - 2^970] on. *)
Definition fits_double (m : Z) : bool := Z.abs m <? 2 ^ 1024 - 2 ^ 970.

(** [sensor] is the content of the thermal-zone file, [None] when it cannot
    be read.  Any failure gives 0. *)
Definition read_cpu_temp (sensor : option string) : Q :=
  match sensor with
  | Some s =>
      match Py.int (strip s) with
      | Some m => if fits_double m then m # 1000 else 0
      | None => 0
      end
  | None => 0
  end.

(** ** [parse_conf] (lines 45-62) *)

(** [steps.sort(key=lambda x: x.temp_c)]: a stable sort, ascending. *)
Fixpoint insert_step (x : Step) (l : list Step) : list Step :=
  match l with
  | [] => [x]
  | y :: l' =>
      if Qle_bool (temp_c x) (temp_c y) then x :: l else y :: insert_step x l'
  end.

Definition sort_steps (l : list Step) : list Step :=
  fold_right insert_step [] l.

(** What [float(s)] returns: a finite number, or one of [nan], [inf] and
    [-inf], which a [Step] of this model cannot hold. *)
Inductive pyfloat : Type :=
| Finite (q : Q)
| NonFinite.

(** What one line of the file does to [steps]. *)
Inductive line_step : Type :=
| NoStep                      (* blank, comment, or the [try] failed *)
| AStep (st : Step)           (* [steps.append(Step(float(t), int(s)))] *)
| NonFiniteStep (s : Z).      (* the same with a threshold not finite *)

(** The configuration file: absent, there but failing to open or to
    decode (lines 50-51 are outside the [try]), or read as the lines its
    iteration yields. *)
Inductive conf_file : Type :=
| ConfAbsent
| ConfUnreadable (e : exn)
| ConfLines (lines : list string).

Section Conf.

(** [float(s)] is Python's: [py_float s] is what the literal [s] gives, and
    [None] where [float] raises. *)
Variable py_float : string -> option pyfloat.

(** The body of the loop of lines 51-59 for one line of the file. *)
Definition parse_line (line : string) : line_step :=
  let line := strip line in
  if String.eqb line EmptyString || startswith_hash line then NoStep
  else
    match split "=" line with
    | [t; s] =>
        match py_float t with
        | Some t' =>
            match Py.int s with
            | Some s' =>
                match t' with
                | Finite q => AStep (mkStep q s')
                | NonFinite => NonFiniteStep s'
                end
            | None => NoStep
            end
        | None => NoStep
        end
    | _ => NoStep
    end.

(** The steps appended by the loop, in the order of the lines; [None] when
    a line appends a step whose threshold is not finite: such a table is
    outside this model. *)
Fixpoint parse_lines (lines : list string) : option (list Step) :=
  match lines with
  | [] => Some []
  | line :: rest =>
      match parse_line line with
      | NoStep => parse_lines rest
      | AStep st => option_map (cons st) (parse_lines rest)
      | NonFiniteStep _ => None
      end
  end.

(** [parse_conf]: the table it returns or the exception it raises; [None]
    when the table is outside the model. *)
Definition parse_conf (conf : conf_file) : option (outcome (list Step)) :=
  match conf with
  | ConfAbsent => Some (Returned default_steps)
  | ConfUnreadable e => Some (Raised e)
  | ConfLines lines =>
      option_map (fun l => Returned (sort_steps l)) (parse_lines lines)
  end.

End Conf.

(** ** The outside world *)

(** How the attempt of [write_state] to write the state file ends. *)
Inductive fs_outcome : Type :=
| FsOk            (* the file now holds the text written *)
| FsOpenFails     (* [open] raised: the file is as it was *)
| FsWriteFails.   (* [open] truncated the file, the write raised *)

Inductive event : Type :=
| EvBusOpen (bus : Z) (ok : bool)               (* smbus.SMBus(bus) *)
| EvBusWrite (addr reg val : Z) (ok : bool)     (* bus.write_byte_data *)
| EvBusClose                                    (* bus.close() *)
| EvStateWrite (val : Z) (how : fs_outcome)     (* open(STATE_PATH, "w") *)
| EvPrintSpeed (val : Z)                        (* line 97 *)
| EvPrintStatus (temp : Q) (target : Z) (last : option Z)   (* line 164 *)
| EvTempRead                                    (* read_cpu_temp() *)
| EvSleep.                                      (* time.sleep(POLL_SECONDS) *)

Record World : Type := mkWorld {
  state_file : option string;   (* content of STATE_PATH, None when absent *)
  events : list event           (* what the program did, oldest first *)
}.

Definition emit (e : event) (w : World) : World :=
  {| state_file := state_file w; events := events w ++ [e] |}.

(** ** [write_state] and [read_state] (lines 65-78) *)

Definition write_state (how : fs_outcome) (val : Z) (w : World) : World :=
  let w' :=
    match how with
    | FsOk => {| state_file := Some (str val); events := events w |}
    | FsOpenFails => w
    | FsWriteFails => {| state_file := Some EmptyString; events := events w |}
    end in
  emit (EvStateWrite val how) w'.

Definition read_state (w : World) : option Z :=
  match state_file w with
  | Some s => Py.int (strip s)
  | None => None
  end.

(** ** [FanController] (lines 81-103) *)

Record FanController : Type := mkFan { last_speed : option Z }.

(** [smbus_present]: the import of lines 15-18 succeeded; [bus_opens]: the
    bus device can be opened. *)
Definition FanController_init (smbus_present bus_opens : bool) (w : World)
  : outcome FanController * World :=
  if negb smbus_present then (Raised RuntimeError, w)
  else
    let w1 := emit (EvBusOpen I2C_BUS bus_opens) w in
    if bus_opens then (Returned (mkFan (read_state w1)), w1)
    else (Raised OSError, w1).

Definition clamp (v : Z) : Z := Z.max 0 (Z.min 100 v).

(** [self.last_speed == speed] *)
Definition last_is (fan : FanController) (v : Z) : bool :=
  match last_speed fan with
  | Some l => l =? v
  | None => false
  end.

(** [hw_ok] tells whether the bus write of this call, if it is made,
    succeeds; [how] how the write of the state file ends. *)
Definition set_speed (hw_ok : bool) (how : fs_outcome) (v : Z)
  (fan : FanController) (w : World) : outcome unit * FanController * World :=
  let v := clamp v in
  if last_is fan v then (Returned tt, fan, w)
  else
    let w1 := emit (EvBusWrite I2C_ADDR FAN_REG v hw_ok) w in
    if hw_ok then
      let w2 := write_state how v w1 in
      (Returned tt, mkFan (Some v), emit (EvPrintSpeed v) w2)
    else (Raised OSError, fan, w1).

Definition close (w : World) : World := emit EvBusClose w.

(** ** [calc_target] (lines 106-119) *)

(** One turn of the loop of lines 108-110:
    [if temp >= st.temp_c: target = st.speed]. *)
Definition step_target (temp : Q) (target : Z) (st : Step) : Z :=
  if Qle_bool (temp_c st) temp then speed st else target.

(** Lines 107-110, the part of [calc_target] before the hysteresis test:
    [target = 0], then the loop over [steps] in order. *)
Definition lookupBaseTarget (temp : Q) (steps : list Step) : Z :=
  fold_left (step_target temp) steps 0.

(** [next((s.temp_c for s in steps if s.speed == v), dflt)]: the threshold of
    the first step whose speed is [v], and [dflt] when there is none. *)
Definition threshold_of (v : Z) (steps : list Step) (dflt : Q) : Q :=
  match find (fun s => speed s =? v) steps with
  | Some s => temp_c s
  | None => dflt
  end.

Definition calc_target (temp : Q) (steps : list Step) (last : option Z) : Z :=
  let target := lookupBaseTarget temp steps in
  match last with
  | None => target
  | Some l =>
      if (l <? target) && Qltb temp (threshold_of target steps temp - HYSTERESIS)
      then l
      else if (target <? l) && Qltb (threshold_of l steps temp + HYSTERESIS) temp
      then l
      else target
  end.

(** ** [run_service] (lines 122-141) *)

(** What the outside answers during one turn of the loop: whether a stop
    signal has been handled when the loop tests [stop], what the sensor file
    holds, whether a bus write succeeds and how a state write ends. *)
Record Tick : Type := mkTick {
  stop : bool;
  sensor : option string;
  hw_ok : bool;
  fs_how : fs_outcome
}.

(** The [while not stop] loop of lines 135-139 over the turns the outside
    provides.  [Some (Returned tt)]: the loop ended on [stop];
    [Some (Raised e)]: an exception left it; [None]: the turns given are
    used up and the loop is still running. *)
Fixpoint service_loop (steps : list Step) (ticks : list Tick)
  (fan : FanController) (w : World)
  : option (outcome unit) * FanController * World :=
  match ticks with
  | [] => (None, fan, w)
  | t :: rest =>
      if stop t then (Some (Returned tt), fan, w)
      else
        let temp := read_cpu_temp (sensor t) in
        let target := calc_target temp steps (last_speed fan) in
        match set_speed (hw_ok t) (fs_how t) target fan (emit EvTempRead w) with
        | (Returned _, fan', w') => service_loop steps rest fan' (emit EvSleep w')
        | (Raised e, fan', w') => (Some (Raised e), fan', w')
        end
  end.

(** What the outside answers to one run of the program. *)
Record Env : Type := mkEnv {
  smbus_present : bool;              (* lines 15-18 *)
  bus_opens : bool;                  (* smbus.SMBus(I2C_BUS) *)
  conf : conf_file;                  (* CONF_PATH *)
  shot : Tick;                       (* the answers to a one-shot command *)
  ticks : list Tick                  (* the answers to the turns of the loop *)
}.

Section Program.

Variable py_float : string -> option pyfloat.

(** [run_service]: how it ends, and [None] when the model gives no end:
    the loop is still running after the turns given, or the table is
    outside the model. *)
Definition run_service (env : Env) (w : World)
  : option (outcome unit) * World :=
  match parse_conf py_float (conf env) with
  | None => (None, w)
  | Some (Raised e) => (Some (Raised e), w)
  | Some (Returned steps) =>
      match FanController_init (smbus_present env) (bus_opens env) w with
      | (Raised e, w1) => (Some (Raised e), w1)
      | (Returned fan, w1) =>
          match service_loop steps (ticks env) fan w1 with
          | (Some r, _, w2) => (Some r, close w2)    (* finally: fan.close() *)
          | (None, _, w2) => (None, w2)
          end
      end
  end.

(** The [try] block of lines 151-166 and the [return 0] of line 170:
    [Returned 2] is the [return 2] of line 166. *)
Definition dispatch (env : Env) (cmd : string) (args : list string)
  (fan : FanController) (w : World) : option (outcome Z) * World :=
  let t := shot env in
  let after (r : outcome unit * FanController * World) :=
    match r with
    | (Returned _, _, w') => (Some (Returned 0), w')
    | (Raised e, _, w') => (Some (Raised e), w')
    end in
  if String.eqb cmd "SERVICE" then
    match run_service env w with
    | (Some (Returned _), w') => (Some (Returned 0), w')
    | (Some (Raised e), w') => (Some (Raised e), w')
    | (None, w') => (None, w')
    end
  else if String.eqb cmd "FANON" then
    after (set_speed (hw_ok t) (fs_how t) 100 fan w)
  else if String.eqb cmd "FANOFF" then
    after (set_speed (hw_ok t) (fs_how t) 0 fan w)
  else if String.eqb cmd "FANSPEED" then
    match args with
    | [] => (Some (Raised IndexError), w)          (* sys.argv[2] *)
    | a :: _ =>
        match Py.int a with
        | None => (Some (Raised ValueError), w)
        | Some n => after (set_speed (hw_ok t) (fs_how t) n fan w)
        end
    end
  else if String.eqb cmd "STATUS" then
    let temp := read_cpu_temp (sensor t) in
    match parse_conf py_float (conf env) with
    | None => (None, emit EvTempRead w)
    | Some (Raised e) => (Some (Raised e), emit EvTempRead w)
    | Some (Returned steps) =>
        let target := calc_target temp steps (last_speed fan) in
        (Some (Returned 0),
         emit (EvPrintStatus temp target (last_speed fan)) (emit EvTempRead w))
    end
  else (Some (Returned 2), w).

(** [main] (lines 144-170); [argv] is [sys.argv]. *)
Definition main (env : Env) (argv : list string) (w : World)
  : option (outcome Z) * World :=
  match argv with
  | [] | [_] => (Some (Returned 2), w)
  | _ :: a1 :: args =>
      let cmd := upper a1 in
      match FanController_init (smbus_present env) (bus_opens env) w with
      | (Raised e, w1) => (Some (Raised e), w1)
      | (Returned fan, w1) =>
          match dispatch env cmd args fan w1 with
          | (Some r, w2) => (Some r, close w2)     (* finally: fan.close() *)
          | (None, w2) => (None, w2)
          end
      end
  end.

End Program.

(** [sys.exit(main())] (line 174): the exit status of the process.  An
    exception that nothing catches ends the interpreter with status 1. *)
Definition exit_status (r : outcome Z) : Z :=
  match r with
  | Returned c => c
  | Raised _ => 1
  end.

(** The events of a world that touch the bus. *)
Definition is_bus_event (e : event) : bool :=
  match e with
  | EvBusOpen _ _ | EvBusWrite _ _ _ _ | EvBusClose => true
  | _ => false
  end.

Definition is_bus_write (e : event) : bool :=
  match e with
  | EvBusWrite _ _ _ _ => true
  | _ => false
  end.

Definition is_state_write (e : event) : bool :=
  match e with
  | EvStateWrite _ _ => true
  | _ => false
  end.

Definition is_temp_read (e : event) : bool :=
  match e with
  | EvTempRead => true
  | _ => false
  end.

Definition bus_writes (w : World) : nat :=
  List.length (filter is_bus_write (events w)).

Definition state_writes (w : World) : nat :=
  List.length (filter is_state_write (events w)).

(** A concrete reading of the literals [digits], [digits.digits], [nan],
    [inf] and [infinity] with an optional sign, exact, for running the
    program on examples; it stands for [float] on those literals only. *)
Fixpoint frac_digits (s : string) (num : Z) (den : positive) : option Q :=
  match s with
  | EmptyString => Some (num # den)
  | String c s' =>
      match digit_of c with
      | Some d => frac_digits s' (10 * num + d) (10 * den)
      | None => None
      end
  end.

Fixpoint dec_digits (s : string) (seen : bool) (num : Z) : option Q :=
  match s with
  | EmptyString => if seen then Some (num # 1) else None
  | String c s' =>
      match digit_of c with
      | Some d => dec_digits s' true (10 * num + d)
      | None =>
          if Ascii.eqb c "." && seen then frac_digits s' num 1 else None
      end
  end.

Definition float_unsigned (r : string) : option pyfloat :=
  if existsb (String.eqb (upper r)) ["NAN"; "INF"; "INFINITY"]%string
  then Some NonFinite
  else option_map Finite (dec_digits r false 0).

Definition float_neg (x : pyfloat) : pyfloat :=
  match x with
  | Finite q => Finite (- q)
  | NonFinite => NonFinite
  end.

Definition float_of_decimal (s : string) : option pyfloat :=
  match int_strip s with
  | String "-" r => option_map float_neg (float_unsigned r)
  | String "+" r => float_unsigned r
  | r => float_unsigned r
  end.

Definition temp_reads (w : World) : nat :=
  List.length (filter is_temp_read (events w)).

Definition bus_accesses (w : World) : nat :=
  List.length (filter is_bus_event (events w)).

(** Two calls of [set_speed] one after the other, as in
    [fan.set_speed(v1); fan.set_speed(v2)]: an exception of the first call
    leaves the sequence. *)
Definition set_speed_twice (hw1 : bool) (how1 : fs_outcome) (v1 : Z)
  (hw2 : bool) (how2 : fs_outcome) (v2 : Z) (fan : FanController) (w : World)
  : outcome unit * FanController * World :=
  match set_speed hw1 how1 v1 fan w with
  | (Returned _, fan1, w1) => set_speed hw2 how2 v2 fan1 w1
  | r => r
  end.

(** A table is ascending when the thresholds do not decrease along it. *)
Definition ascending (l : list Step) : Prop :=
  StronglySorted (fun a b => (temp_c a <= temp_c b)%Q) l.

Definition known_command (cmd : string) : bool :=
  existsb (String.eqb cmd) ["SERVICE"; "FANON"; "FANOFF"; "FANSPEED"; "STATUS"]%string.

Definition empty_world : World := mkWorld None [].

(** Turns of the loop for running the program on examples: at 62 degrees
    with everything working, at 62 degrees with the bus write raising, and
    at 70 degrees with the bus write raising. *)
Definition tick_ok : Tick := mkTick false (Some "62000"%string) true FsOk.

(** ** Notions used by the further properties *)

(** A fan curve rises when the speeds grow strictly along the table and are
    all positive. *)
Definition rising (l : list Step) : Prop :=
  StronglySorted (fun a b => speed a < speed b) l /\
  Forall (fun s => 0 < speed s) l.

(** The speeds do not decrease along the table and none is negative. *)
Definition speeds_ascending (l : list Step) : Prop :=
  StronglySorted (fun a b => speed a <= speed b) l /\
  Forall (fun s => 0 <= speed s) l.

(** The steps of a table whose threshold is [t]. *)
Definition at_temp (t : Q) (l : list Step) : list Step :=
  filter (fun s => Qeq_bool (temp_c s) t) l.

(** The speed the fan register holds after the events [evs], from the speed
    [init] it held before: the value of the last bus write that succeeded. *)
Definition replay (init : option Z) (evs : list event) : option Z :=
  fold_left
    (fun acc e =>
       match e with
       | EvBusWrite _ _ v true => Some v
       | _ => acc
       end)
    evs init.

(** A bus write is well formed when it goes to the fan register of the
    controller and carries a speed from 0 to 100. *)
Definition well_formed_event (e : event) : Prop :=
  match e with
  | EvBusWrite a r v _ => a = I2C_ADDR /\ r = FAN_REG /\ 0 <= v <= 100
  | _ => True
  end.

Definition is_open_ok (e : event) : bool :=
  match e with
  | EvBusOpen _ true => true
  | _ => false
  end.

Definition is_close (e : event) : bool :=
  match e with
  | EvBusClose => true
  | _ => false
  end.

Definition opened (w : World) : nat := List.length (filter is_open_ok (events w)).
Definition closed (w : World) : nat := List.length (filter is_close (events w)).

(** The state file, when there is one, holds ASCII text. *)
Definition ascii_state (w : World) : bool :=
  match state_file w with
  | Some s => is_ascii s
  | None => true
  end.

(** A text without white space. *)
Fixpoint no_space (s : string) : bool :=
  match s with
  | EmptyString => true
  | String c s' => negb (is_space c) && no_space s'
  end.

(** The integers from 0 to [n - 1]. *)
Definition upto (n : nat) : list Z := map Z.of_nat (seq 0 n).

(** * Properties *)

(** ** Comparisons of rationals *)

Lemma Qle_bool_false (a b : Q) : Qle_bool a b = false <-> (b < a)%Q.
Proof.
  split; intro H.
  - apply Qnot_le_lt. intro Hle. apply Qle_bool_iff in Hle. congruence.
  - destruct (Qle_bool a b) eqn:E; [|reflexivity].
    apply Qle_bool_iff in E. apply Qle_not_lt in E. contradiction.
Qed.

Lemma Qltb_true (a b : Q) : Qltb a b = true <-> (a < b)%Q.
Proof.
  unfold Qltb. rewrite negb_true_iff. apply Qle_bool_false.
Qed.

Lemma Qltb_false (a b : Q) : Qltb a b = false <-> (b <= a)%Q.
Proof.
  unfold Qltb. rewrite negb_false_iff. apply Qle_bool_iff.
Qed.

(** Turns every boolean comparison of the context into its proposition. *)
Ltac reflect_Q :=
  repeat match goal with
         | H : Qle_bool _ _ = true |- _ => apply Qle_bool_iff in H
         | H : Qle_bool _ _ = false |- _ => apply Qle_bool_false in H
         | H : Qltb _ _ = true |- _ => apply Qltb_true in H
         | H : Qltb _ _ = false |- _ => apply Qltb_false in H
         end.

(** ** The base target *)

(** The base target over the default table, interval by interval. *)
Lemma lookup_default_cases (T : Q) :
  ((T < 45)%Q /\ lookupBaseTarget T default_steps = 0) \/
  ((45 <= T < 50)%Q /\ lookupBaseTarget T default_steps = 20) \/
  ((50 <= T < 55)%Q /\ lookupBaseTarget T default_steps = 35) \/
  ((55 <= T < 60)%Q /\ lookupBaseTarget T default_steps = 55) \/
  ((60 <= T < 65)%Q /\ lookupBaseTarget T default_steps = 75) \/
  ((65 <= T)%Q /\ lookupBaseTarget T default_steps = 100).
Proof.
  unfold lookupBaseTarget, default_steps, step_target; cbn [fold_left temp_c speed].
  destruct (Qle_bool 45 T) eqn:E45; destruct (Qle_bool 50 T) eqn:E50;
  destruct (Qle_bool 55 T) eqn:E55; destruct (Qle_bool 60 T) eqn:E60;
  destruct (Qle_bool 65 T) eqn:E65; reflect_Q;
  try (exfalso; lra).
  all: first
    [ left; split; [lra | reflexivity]
    | right; left; split; [lra | reflexivity]
    | right; right; left; split; [lra | reflexivity]
    | right; right; right; left; split; [lra | reflexivity]
    | right; right; right; right; left; split; [lra | reflexivity]
    | right; right; right; right; right; split; [lra | reflexivity] ].
Qed.

(** C3. Over the default table the base target is 0 below 45, 20 from 45
    up to 50, 35 from 50 up to 55, 55 from 55 up to 60, 75 from 60 up to 65
    and 100 from 65 on, for every temperature (those not greater than 45
    included); over the empty table it is 0 for every temperature. *)
Theorem C3_lookup_default_table (T : Q) :
  ((T < 45)%Q -> lookupBaseTarget T default_steps = 0) /\
  ((45 <= T < 50)%Q -> lookupBaseTarget T default_steps = 20) /\
  ((50 <= T < 55)%Q -> lookupBaseTarget T default_steps = 35) /\
  ((55 <= T < 60)%Q -> lookupBaseTarget T default_steps = 55) /\
  ((60 <= T < 65)%Q -> lookupBaseTarget T default_steps = 75) /\
  ((65 <= T)%Q -> lookupBaseTarget T default_steps = 100) /\
  lookupBaseTarget T [] = 0.
Proof.
  destruct (lookup_default_cases T) as [[I E]|[[I E]|[[I E]|[[I E]|[[I E]|[I E]]]]]];
    (split; [|split; [|split; [|split; [|split; [|split]]]]]);
    try reflexivity; intros H; solve [exact E | exfalso; lra].
Qed.

(** The theorem at the temperatures 40, 47, 52, 57, 62 and 70. *)
Lemma C3_lookup_default_table_witness :
  lookupBaseTarget 40 default_steps = 0 /\
  lookupBaseTarget 47 default_steps = 20 /\
  lookupBaseTarget 52 default_steps = 35 /\
  lookupBaseTarget 57 default_steps = 55 /\
  lookupBaseTarget 62 default_steps = 75 /\
  lookupBaseTarget 70 default_steps = 100.
Proof.
  split; [|split; [|split; [|split; [|split]]]].
  - destruct (C3_lookup_default_table 40) as (H & _). apply H. reflexivity.
  - destruct (C3_lookup_default_table 47) as (_ & H & _). apply H.
    split; [discriminate | reflexivity].
  - destruct (C3_lookup_default_table 52) as (_ & _ & H & _). apply H.
    split; [discriminate | reflexivity].
  - destruct (C3_lookup_default_table 57) as (_ & _ & _ & H & _). apply H.
    split; [discriminate | reflexivity].
  - destruct (C3_lookup_default_table 62) as (_ & _ & _ & _ & H & _). apply H.
    split; [discriminate | reflexivity].
  - destruct (C3_lookup_default_table 70) as (_ & _ & _ & _ & _ & H & _). apply H.
    discriminate.
Defined.

(** ** The hysteresis test over the default table *)

(** The threshold the hysteresis test looks up for a speed [v] in the
    default table: that of the step commanding [v], else the fallback. *)
Lemma threshold_of_default (v : Z) (d : Q) :
  threshold_of v default_steps d =
    if v =? 20 then 45%Q
    else if v =? 35 then 50%Q
    else if v =? 55 then 55%Q
    else if v =? 75 then 60%Q
    else if v =? 100 then 65%Q
    else d.
Proof.
  unfold threshold_of, default_steps; cbn [find speed temp_c].
  rewrite !(Z.eqb_sym _ v).
  repeat match goal with
         | |- context [v =? ?c] => destruct (v =? c); [reflexivity|]
         end.
  reflexivity.
Qed.

(** An increase is never held back: the step that gives the base target is
    one the temperature has reached, so the temperature is not below its
    threshold, let alone 4 degrees below. *)
Lemma increase_never_suppressed_default (T : Q) :
  Qltb T (threshold_of (lookupBaseTarget T default_steps) default_steps T - HYSTERESIS)
  = false.
Proof.
  apply Qltb_false. unfold HYSTERESIS.
  destruct (lookup_default_cases T) as [[I E]|[[I E]|[[I E]|[[I E]|[[I E]|[I E]]]]]];
    rewrite E, threshold_of_default; cbn [Z.eqb Pos.eqb]; lra.
Qed.

(** A decrease is never held back either: when the base target is below
    [l], the temperature is below the threshold of the step commanding [l],
    so it is not above that threshold plus 4 degrees; and when no step
    commands [l] the test compares the temperature with itself plus 4. *)
Lemma decrease_never_suppressed_default (T : Q) (l : Z) :
  (lookupBaseTarget T default_steps <? l)
  && Qltb (threshold_of l default_steps T + HYSTERESIS) T = false.
Proof.
  destruct (lookupBaseTarget T default_steps <? l) eqn:Hlt; [|reflexivity].
  apply Z.ltb_lt in Hlt. cbn [andb].
  apply Qltb_false. unfold HYSTERESIS. rewrite threshold_of_default.
  destruct (lookup_default_cases T) as [[I E]|[[I E]|[[I E]|[[I E]|[[I E]|[I E]]]]]];
    rewrite E in Hlt;
    repeat match goal with
           | |- context [l =? ?c] =>
               destruct (Z.eqb_spec l c) as [->|?]; [first [lia | lra]|]
           end;
    lra.
Qed.

(** C10. Over the default table [calc_target] is the base target, for every
    temperature and every last speed, known or not: neither branch of the
    hysteresis test ever changes the result. *)
Theorem C10_hysteresis_inert_on_default_table (T : Q) (last : option Z) :
  calc_target T default_steps last = lookupBaseTarget T default_steps.
Proof.
  destruct last as [l|]; [|reflexivity].
  unfold calc_target.
  rewrite increase_never_suppressed_default, andb_false_r.
  rewrite decrease_never_suppressed_default.
  reflexivity.
Qed.

(** C1. Evaluation of [calc_target] over the default table with last speed
    100 at temperatures inside (61, 65): the result is the base target 75,
    not 100; the decrease is not held back above 61. *)
Theorem C1_decrease_not_held_above_61 :
  calc_target 62 default_steps (Some 100) = 75 /\
  calc_target (643 # 10) default_steps (Some 100) = 75 /\
  calc_target 65 default_steps (Some 100) = 100 /\
  calc_target 61 default_steps (Some 100) = 75.
Proof.
  split; [|split; [|split]]; reflexivity.
Qed.

(** ** The controller *)

Lemma last_is_true (fan : FanController) (v : Z) :
  last_is fan v = true <-> last_speed fan = Some v.
Proof.
  unfold last_is. destruct (last_speed fan) as [l|].
  - rewrite Z.eqb_eq. split; [intros ->; reflexivity | intros [= ->]; reflexivity].
  - split; discriminate.
Qed.

Lemma last_is_false (fan : FanController) (v : Z) :
  last_is fan v = false <-> last_speed fan <> Some v.
Proof.
  rewrite <- last_is_true. destruct (last_is fan v); split; congruence.
Qed.

Lemma clamp_range (v : Z) : 0 <= clamp v <= 100.
Proof. unfold clamp. lia. Qed.

Lemma clamp_idem (v : Z) : clamp (clamp v) = clamp v.
Proof. unfold clamp. lia. Qed.

Lemma clamp_fixed (v : Z) : 0 <= v <= 100 -> clamp v = v.
Proof. unfold clamp. lia. Qed.

Lemma filter_snoc {A} (f : A -> bool) (l : list A) (a : A) :
  filter f (l ++ [a]) = filter f l ++ (if f a then [a] else []).
Proof. rewrite filter_app. reflexivity. Qed.

Lemma bus_writes_emit (e : event) (w : World) :
  bus_writes (emit e w) = (bus_writes w + (if is_bus_write e then 1 else 0))%nat.
Proof.
  unfold bus_writes, emit; cbn [events]. rewrite filter_snoc, length_app.
  destruct (is_bus_write e); reflexivity.
Qed.

Lemma state_writes_emit (e : event) (w : World) :
  state_writes (emit e w) = (state_writes w + (if is_state_write e then 1 else 0))%nat.
Proof.
  unfold state_writes, emit; cbn [events]. rewrite filter_snoc, length_app.
  destruct (is_state_write e); reflexivity.
Qed.

Lemma write_state_events (how : fs_outcome) (v : Z) (w : World) :
  events (write_state how v w) = events w ++ [EvStateWrite v how].
Proof. destruct how; reflexivity. Qed.

Lemma bus_writes_write_state (how : fs_outcome) (v : Z) (w : World) :
  bus_writes (write_state how v w) = bus_writes w.
Proof.
  unfold bus_writes. rewrite write_state_events, filter_snoc.
  cbn [is_bus_write]. rewrite app_nil_r. reflexivity.
Qed.

Lemma state_writes_write_state (how : fs_outcome) (v : Z) (w : World) :
  state_writes (write_state how v w) = S (state_writes w).
Proof.
  unfold state_writes. rewrite write_state_events, filter_snoc, length_app.
  cbn. lia.
Qed.

(** What a call that changes the speed does, when the bus write succeeds. *)
Lemma set_speed_change (how : fs_outcome) (v : Z) (fan : FanController) (w : World) :
  last_speed fan <> Some (clamp v) ->
  set_speed true how v fan w =
    (Returned tt, mkFan (Some (clamp v)),
     emit (EvPrintSpeed (clamp v))
       (write_state how (clamp v)
          (emit (EvBusWrite I2C_ADDR FAN_REG (clamp v) true) w))).
Proof.
  intros H. apply last_is_false in H. unfold set_speed. rewrite H. reflexivity.
Qed.

(** What a call for the speed the controller already has does: nothing. *)
Lemma set_speed_same (hw : bool) (how : fs_outcome) (v : Z)
  (fan : FanController) (w : World) :
  last_speed fan = Some (clamp v) ->
  set_speed hw how v fan w = (Returned tt, fan, w).
Proof.
  intros H. apply last_is_true in H. unfold set_speed. rewrite H. reflexivity.
Qed.

(** What a call does when its bus write raises. *)
Lemma set_speed_hw_raises (how : fs_outcome) (v : Z) (fan : FanController) (w : World) :
  last_speed fan <> Some (clamp v) ->
  set_speed false how v fan w =
    (Raised OSError, fan, emit (EvBusWrite I2C_ADDR FAN_REG (clamp v) false) w).
Proof.
  intros H. apply last_is_false in H. unfold set_speed. rewrite H. reflexivity.
Qed.

(** C4. When the bus write made inside [set_speed] raises, the call raises,
    and the speed the controller remembers and the state file are as they
    were before the call: nothing is written to the state file. *)
Theorem C4_hw_failure_commits_nothing
  (how : fs_outcome) (v : Z) (fan : FanController) (w : World) :
  last_speed fan <> Some (clamp v) ->
  exists w',
    set_speed false how v fan w = (Raised OSError, fan, w') /\
    state_file w' = state_file w /\
    state_writes w' = state_writes w /\
    bus_writes w' = S (bus_writes w).
Proof.
  intros H. eexists. split; [apply set_speed_hw_raises; exact H|].
  split; [reflexivity|].
  rewrite state_writes_emit, bus_writes_emit. cbn. lia.
Qed.

(** The theorem for a controller at 20 asked for 75, the state file
    holding 20. *)
Lemma C4_hw_failure_commits_nothing_witness :
  exists w',
    set_speed false FsOk 75 (mkFan (Some 20)) (mkWorld (Some "20"%string) []) =
      (Raised OSError, mkFan (Some 20), w') /\
    state_file w' = Some "20"%string /\
    state_writes w' = 0%nat /\
    bus_writes w' = 1%nat.
Proof.
  apply (C4_hw_failure_commits_nothing FsOk 75 (mkFan (Some 20))
           (mkWorld (Some "20"%string) [])).
  cbn. discriminate.
Defined.

(** C9. In every state of the controller and of the world, asking for 150
    does what asking for 100 does and asking for -5 does what asking for 0
    does.  A call for [v] works with [c], which is [v] brought into 0..100
    ([max(0, min(100, v))]): it is the call for [c]; it does nothing when
    the controller remembers [c]; and otherwise the bus write it makes
    carries [c], the controller remembers [c] once that write succeeded,
    and the state file is written with the text of [c]. *)
Theorem C9_set_speed_clamps
  (hw : bool) (how : fs_outcome) (fan : FanController) (w : World) :
  set_speed hw how 150 fan w = set_speed hw how 100 fan w /\
  set_speed hw how (-5) fan w = set_speed hw how 0 fan w /\
  forall v : Z,
    let c := Z.max 0 (Z.min 100 v) in
    set_speed hw how v fan w = set_speed hw how c fan w /\
    0 <= c <= 100 /\
    (last_speed fan = Some c ->
     set_speed hw how v fan w = (Returned tt, fan, w)) /\
    (last_speed fan <> Some c ->
     exists r w',
       set_speed hw how v fan w = (r, (if hw then mkFan (Some c) else fan), w') /\
       (exists rest,
          events w' = events w ++ EvBusWrite I2C_ADDR FAN_REG c hw :: rest) /\
       state_file w' =
         if hw then
           match how with
           | FsOk => Some (str c)
           | FsOpenFails => state_file w
           | FsWriteFails => Some EmptyString
           end
         else state_file w).
Proof.
  split; [reflexivity|]. split; [reflexivity|].
  intros v c. change c with (clamp v).
  split; [unfold set_speed; rewrite clamp_idem; reflexivity|].
  split; [apply clamp_range|].
  split; [apply set_speed_same|].
  intros H. destruct hw.
  - do 2 eexists. split; [apply set_speed_change, H|]. split.
    + exists [EvStateWrite (clamp v) how; EvPrintSpeed (clamp v)].
      unfold emit at 1; cbn [events]. rewrite write_state_events.
      unfold emit; cbn [events]. rewrite <- !app_assoc. reflexivity.
    + destruct how; reflexivity.
  - do 2 eexists. split; [apply set_speed_hw_raises, H|]. split.
    + exists []. reflexivity.
    + reflexivity.
Qed.

(** The theorem for a controller at 20 asked for 150, and for a controller
    at 100 asked for 150. *)
Lemma C9_set_speed_clamps_witness :
  (exists r w',
     set_speed true FsOk 150 (mkFan (Some 20)) empty_world =
       (r, mkFan (Some 100), w') /\
     (exists rest, events w' = [] ++ EvBusWrite I2C_ADDR FAN_REG 100 true :: rest) /\
     state_file w' = Some "100"%string) /\
  set_speed true FsOk 150 (mkFan (Some 100)) empty_world =
    (Returned tt, mkFan (Some 100), empty_world).
Proof.
  destruct (C9_set_speed_clamps true FsOk (mkFan (Some 20)) empty_world)
    as (_ & _ & A).
  destruct (C9_set_speed_clamps true FsOk (mkFan (Some 100)) empty_world)
    as (_ & _ & B).
  split.
  - destruct (A 150) as (_ & _ & _ & A'). apply A'. cbn. discriminate.
  - destruct (B 150) as (_ & _ & B' & _). apply B'. reflexivity.
Defined.

(** The controller built on a world whose bus can be opened. *)
Lemma FanController_init_ok (w : World) :
  FanController_init true true w =
    (Returned (mkFan (read_state w)), emit (EvBusOpen I2C_BUS true) w).
Proof. reflexivity. Qed.



(** C8, as the program has it. Two calls in a row for the same clamped
    speed, from a controller that does not already remember that speed and
    with the bus write of the first call succeeding: one bus write and one
    state write in all, and the second call changes nothing, neither the
    controller nor the world.  From a controller that already remembers the
    speed, neither call writes anything. *)
Theorem C8_second_call_does_nothing
  (how1 how2 : fs_outcome) (hw2 : bool) (v1 v2 : Z)
  (fan : FanController) (w : World) :
  clamp v1 = clamp v2 ->
  (last_speed fan <> Some (clamp v1) ->
   exists fan1 w1,
     set_speed true how1 v1 fan w = (Returned tt, fan1, w1) /\
     set_speed hw2 how2 v2 fan1 w1 = (Returned tt, fan1, w1) /\
     set_speed_twice true how1 v1 hw2 how2 v2 fan w = (Returned tt, fan1, w1) /\
     last_speed fan1 = Some (clamp v1) /\
     bus_writes w1 = S (bus_writes w) /\
     state_writes w1 = S (state_writes w))
  /\
  (last_speed fan = Some (clamp v1) ->
   forall hw1,
     set_speed_twice hw1 how1 v1 hw2 how2 v2 fan w = (Returned tt, fan, w)).
Proof.
  intros Hc. split.
  - intros Hne. do 2 eexists.
    assert (E1 := set_speed_change how1 v1 fan w Hne).
    assert (E2 : set_speed hw2 how2 v2 (mkFan (Some (clamp v1)))
                   (emit (EvPrintSpeed (clamp v1))
                      (write_state how1 (clamp v1)
                         (emit (EvBusWrite I2C_ADDR FAN_REG (clamp v1) true) w))) =
                 (Returned tt, mkFan (Some (clamp v1)),
                   emit (EvPrintSpeed (clamp v1))
                      (write_state how1 (clamp v1)
                         (emit (EvBusWrite I2C_ADDR FAN_REG (clamp v1) true) w)))).
    { apply set_speed_same. cbn. rewrite Hc. reflexivity. }
    split; [exact E1|]. split; [exact E2|].
    split; [unfold set_speed_twice; rewrite E1; exact E2|].
    split; [reflexivity|].
    rewrite bus_writes_emit, bus_writes_write_state, bus_writes_emit.
    rewrite state_writes_emit, state_writes_write_state, state_writes_emit.
    cbn. lia.
  - intros He hw1. unfold set_speed_twice.
    rewrite (set_speed_same hw1 how1 v1 fan w He).
    apply set_speed_same. rewrite <- Hc. exact He.
Qed.

(** The theorem for a controller at 20 asked twice for 75, and for a
    controller at 75 asked twice for 75. *)
Lemma C8_second_call_does_nothing_witness :
  (exists fan1 w1,
     set_speed true FsOk 75 (mkFan (Some 20)) empty_world = (Returned tt, fan1, w1) /\
     set_speed true FsOk 75 fan1 w1 = (Returned tt, fan1, w1) /\
     set_speed_twice true FsOk 75 true FsOk 75 (mkFan (Some 20)) empty_world =
       (Returned tt, fan1, w1) /\
     last_speed fan1 = Some 75 /\
     bus_writes w1 = 1%nat /\
     state_writes w1 = 1%nat)
  /\
  (forall hw1,
     set_speed_twice hw1 FsOk 75 true FsOk 75 (mkFan (Some 75)) empty_world =
       (Returned tt, mkFan (Some 75), empty_world)).
Proof.
  split.
  - apply (proj1 (C8_second_call_does_nothing FsOk FsOk true 75 75
                    (mkFan (Some 20)) empty_world eq_refl)).
    cbn. discriminate.
  - apply (proj2 (C8_second_call_does_nothing FsOk FsOk true 75 75
                    (mkFan (Some 75)) empty_world eq_refl)).
    reflexivity.
Defined.

(** C8 as it is written fails: a controller that already remembers 55 (as
    one started on a state file holding "55" does), asked twice for 55,
    makes no bus write and no state write at all, not one of each. *)
Lemma C8_counterexample :
  let r := set_speed_twice true FsOk 55 true FsOk 55 (mkFan (Some 55)) empty_world in
  fst (fst r) = Returned tt /\
  bus_writes (snd r) = 0%nat /\
  state_writes (snd r) = 0%nat.
Proof. split; [|split]; reflexivity. Qed.

(** ** The configuration file *)

Lemma insert_step_perm (x : Step) (l : list Step) :
  Permutation (insert_step x l) (x :: l).
Proof.
  induction l as [|y l IH]; cbn [insert_step].
  - apply Permutation_refl.
  - destruct (Qle_bool (temp_c x) (temp_c y)).
    + apply Permutation_refl.
    + apply perm_trans with (y :: x :: l).
      * apply perm_skip, IH.
      * apply perm_swap.
Qed.

Lemma sort_steps_perm (l : list Step) : Permutation (sort_steps l) l.
Proof.
  induction l as [|x l IH]; cbn [sort_steps fold_right].
  - apply perm_nil.
  - apply perm_trans with (x :: sort_steps l).
    + apply insert_step_perm.
    + apply perm_skip, IH.
Qed.

Lemma insert_step_ascending (x : Step) (l : list Step) :
  ascending l -> ascending (insert_step x l).
Proof.
  unfold ascending. induction l as [|y l IH]; intros H; cbn [insert_step].
  - constructor; constructor.
  - inversion H as [|? ? Hl Hy]; subst.
    destruct (Qle_bool (temp_c x) (temp_c y)) eqn:E; reflect_Q.
    + constructor; [exact H|].
      constructor; [exact E|].
      eapply Forall_impl; [|exact Hy].
      intros z Hz. cbn beta in Hz. eapply Qle_trans; eassumption.
    + constructor; [apply IH, Hl|].
      eapply Permutation_Forall.
      * apply Permutation_sym, insert_step_perm.
      * constructor; [apply Qlt_le_weak, E | exact Hy].
Qed.

Lemma sort_steps_ascending (l : list Step) : ascending (sort_steps l).
Proof.
  induction l as [|x l IH]; cbn [sort_steps fold_right].
  - constructor.
  - apply insert_step_ascending, IH.
Qed.

(** Over the empty table the target is 0, whatever the last speed. *)
Lemma calc_target_nil (T : Q) (last : option Z) : calc_target T [] last = 0.
Proof.
  destruct last as [l|]; [|reflexivity].
  unfold calc_target, lookupBaseTarget, threshold_of, HYSTERESIS; cbn [fold_left find].
  assert (E1 : Qltb T (T - 4) = false) by (apply Qltb_false; lra).
  assert (E2 : Qltb (T + 4) T = false) by (apply Qltb_false; lra).
  rewrite E1, E2, !andb_false_r. reflexivity.
Qed.

Section ConfProperties.

Variable py_float : string -> option pyfloat.

Lemma parse_lines_app (a b : list string) :
  parse_lines py_float (a ++ b) =
    match parse_lines py_float a, parse_lines py_float b with
    | Some x, Some y => Some (x ++ y)
    | _, _ => None
    end.
Proof.
  induction a as [|x a IH]; cbn [parse_lines app].
  - destruct (parse_lines py_float b); reflexivity.
  - destruct (parse_line py_float x); [exact IH | | reflexivity].
    rewrite IH.
    destruct (parse_lines py_float a), (parse_lines py_float b); reflexivity.
Qed.

(** A line that adds no step can be left out of the file. *)
Lemma parse_lines_skip (l1 l2 : list string) (bad : string) :
  parse_line py_float bad = NoStep ->
  parse_lines py_float (l1 ++ bad :: l2) = parse_lines py_float (l1 ++ l2).
Proof.
  intros H. rewrite !parse_lines_app. cbn [parse_lines]. rewrite H. reflexivity.
Qed.

Lemma parse_lines_In (lines : list string) (steps : list Step)
  (line : string) (st : Step) :
  parse_lines py_float lines = Some steps ->
  In line lines -> parse_line py_float line = AStep st -> In st steps.
Proof.
  revert steps. induction lines as [|x lines IH]; intros steps Hs Hin Hp;
    [contradiction|].
  cbn [parse_lines] in Hs. destruct Hin as [->|Hin].
  - rewrite Hp in Hs. destruct (parse_lines py_float lines); [|discriminate].
    injection Hs as <-. left. reflexivity.
  - destruct (parse_line py_float x); [| |discriminate].
    + apply IH; assumption.
    + destruct (parse_lines py_float lines) as [l|]; [|discriminate].
      injection Hs as <-. right. apply (IH l); [reflexivity | assumption..].
Qed.

Lemma parse_lines_none (lines : list string) :
  (forall line, In line lines -> parse_line py_float line = NoStep) ->
  parse_lines py_float lines = Some [].
Proof.
  induction lines as [|x lines IH]; intros H; [reflexivity|].
  cbn [parse_lines]. rewrite (H x (or_introl eq_refl)).
  apply IH. intros line Hin. apply H. right. exact Hin.
Qed.

(** A line adds the step [st] exactly when, stripped, it is not empty, does
    not start with [#] and splits at [=] into two texts, of which [float]
    reads the first as the threshold of [st], a finite number, and [int]
    the second as its speed. *)
Lemma parse_line_valid (line : string) (st : Step) :
  parse_line py_float line = AStep st <->
  (String.eqb (strip line) EmptyString = false /\
   startswith_hash (strip line) = false /\
   exists t s,
     split "=" (strip line) = [t; s] /\
     py_float t = Some (Finite (temp_c st)) /\
     Py.int s = Some (speed st)).
Proof.
  unfold parse_line.
  destruct (String.eqb (strip line) EmptyString) eqn:E1; cbn [orb].
  { split; [discriminate | intros (H & _); discriminate]. }
  destruct (startswith_hash (strip line)) eqn:E2.
  { split; [discriminate | intros (_ & H & _); discriminate]. }
  split.
  - intros H. split; [reflexivity|]. split; [reflexivity|].
    destruct (split "=" (strip line)) as [|t [|s [|x l]]]; try discriminate.
    exists t, s. split; [reflexivity|].
    destruct (py_float t) as [[q|]|]; try discriminate;
      destruct (Py.int s) as [z|]; try discriminate.
    injection H as <-. split; reflexivity.
  - intros (_ & _ & t & s & -> & -> & ->). destruct st; reflexivity.
Qed.

(** C5, as the program has it. An absent configuration file gives the
    default table; a file that is there but cannot be opened or decoded
    makes [parse_conf] raise.  A file read as ASCII lines whose thresholds
    are finite gives the steps of its valid lines, all of them and nothing
    else, in ascending order of temperature; a line that adds no step
    (blank, comment or malformed) is skipped, the result being the one of
    the file without it; a line is valid exactly when it is made of a
    threshold [float] reads and a speed [int] reads, with one [=] between;
    and a file with no valid line gives the empty table, over which the
    target is 0 at every temperature. *)
Theorem C5_parse_conf_table :
  parse_conf py_float ConfAbsent = Some (Returned default_steps) /\
  (forall e, parse_conf py_float (ConfUnreadable e) = Some (Raised e)) /\
  (forall lines,
     Forall (fun l => is_ascii l = true) lines ->
     (forall steps,
        parse_lines py_float lines = Some steps ->
        exists table,
          parse_conf py_float (ConfLines lines) = Some (Returned table) /\
          Permutation table steps /\ ascending table) /\
     (forall l1 bad l2,
        lines = l1 ++ bad :: l2 ->
        parse_line py_float bad = NoStep ->
        parse_conf py_float (ConfLines lines) =
        parse_conf py_float (ConfLines (l1 ++ l2))) /\
     (forall line st table,
        In line lines -> parse_line py_float line = AStep st ->
        parse_conf py_float (ConfLines lines) = Some (Returned table) ->
        In st table) /\
     (forall line st,
        In line lines ->
        (parse_line py_float line = AStep st <->
         (String.eqb (strip line) EmptyString = false /\
          startswith_hash (strip line) = false /\
          exists t s,
            split "=" (strip line) = [t; s] /\
            py_float t = Some (Finite (temp_c st)) /\
            Py.int s = Some (speed st)))) /\
     ((forall line, In line lines -> parse_line py_float line = NoStep) ->
      parse_conf py_float (ConfLines lines) = Some (Returned []) /\
      forall T last, calc_target T [] last = 0)).
Proof.
  split; [reflexivity|]. split; [reflexivity|].
  intros lines _. split; [|split; [|split; [|split]]].
  - intros steps H. exists (sort_steps steps). cbn [parse_conf]. rewrite H.
    split; [reflexivity|].
    split; [apply sort_steps_perm | apply sort_steps_ascending].
  - intros l1 bad l2 -> H. cbn [parse_conf].
    rewrite (parse_lines_skip l1 l2 bad H). reflexivity.
  - intros line st table Hin Hp Hc. cbn [parse_conf] in Hc.
    destruct (parse_lines py_float lines) as [steps|] eqn:E; [|discriminate].
    injection Hc as <-.
    eapply Permutation_in.
    + apply Permutation_sym, sort_steps_perm.
    + eapply parse_lines_In; eassumption.
  - intros line st _. apply parse_line_valid.
  - intros H. cbn [parse_conf]. rewrite (parse_lines_none lines H).
    split; [reflexivity|]. intros T last. apply calc_target_nil.
Qed.

End ConfProperties.

(** The theorem on a file of seven lines, three of them valid, with the
    malformed line "50=x" in the middle; and on a file of a comment and a
    blank line. *)
Lemma C5_parse_conf_table_witness :
  let file := ["# fan curve"; "60=75"; "50=x"; " 45.5 = 20 "; "55"; "65=100=1"; "50=35"]%string in
  parse_conf float_of_decimal (ConfLines file) =
    parse_conf float_of_decimal
      (ConfLines ["# fan curve"; "60=75"; " 45.5 = 20 "; "55"; "65=100=1"; "50=35"]%string) /\
  In (mkStep (455 # 10) 20)
     [mkStep (455 # 10) 20; mkStep 50 35; mkStep 60 75] /\
  parse_conf float_of_decimal (ConfLines ["# fan curve"; ""]%string) = Some (Returned []).
Proof.
  cbv zeta.
  assert (A : Forall (fun l => is_ascii l = true)
                ["# fan curve"; "60=75"; "50=x"; " 45.5 = 20 "; "55";
                 "65=100=1"; "50=35"]%string).
  { repeat (constructor; [reflexivity|]). constructor. }
  assert (B : Forall (fun l => is_ascii l = true) ["# fan curve"; ""]%string).
  { repeat (constructor; [reflexivity|]). constructor. }
  destruct (proj2 (proj2 (C5_parse_conf_table float_of_decimal)) _ A)
    as (_ & Hskip & Hin & _).
  destruct (proj2 (proj2 (C5_parse_conf_table float_of_decimal)) _ B)
    as (_ & _ & _ & _ & Hnone).
  split; [|split].
  - apply (Hskip ["# fan curve"; "60=75"]%string "50=x"%string
             [" 45.5 = 20 "; "55"; "65=100=1"; "50=35"]%string);
      reflexivity.
  - apply (Hin " 45.5 = 20 "%string).
    + cbn. tauto.
    + reflexivity.
    + reflexivity.
  - apply Hnone. intros line [<-|[<-|[]]]; reflexivity.
Defined.

(** C5 as it is written fails: a configuration file that is there and
    holds no valid step line (here a comment and a blank line, or nothing)
    gives the empty table, not the default one; at 80 degrees the target
    is then 0 where the default table gives 100. *)
Lemma C5_counterexample :
  parse_conf float_of_decimal (ConfLines ["# fan curve"; ""]%string) =
    Some (Returned []) /\
  parse_conf float_of_decimal (ConfLines []) = Some (Returned []) /\
  calc_target 80 [] None = 0 /\
  calc_target 80 default_steps None = 100.
Proof. split; [|split; [|split]]; reflexivity. Qed.

(** ** The service loop *)

Lemma temp_reads_emit (e : event) (w : World) :
  temp_reads (emit e w) = (temp_reads w + (if is_temp_read e then 1 else 0))%nat.
Proof.
  unfold temp_reads, emit; cbn [events]. rewrite filter_snoc, length_app.
  destruct (is_temp_read e); reflexivity.
Qed.



Section ProgramProperties.

Variable py_float : string -> option pyfloat.


Lemma known_command_false (cmd : string) :
  known_command cmd = false ->
  String.eqb cmd "SERVICE" = false /\ String.eqb cmd "FANON" = false /\
  String.eqb cmd "FANOFF" = false /\ String.eqb cmd "FANSPEED" = false /\
  String.eqb cmd "STATUS" = false.
Proof.
  unfold known_command; cbn [existsb]. rewrite !orb_false_iff. tauto.
Qed.

(** C6, as the program has it. Without a subcommand the program returns 2
    and does nothing else: no bus access of any kind.  With an unknown
    subcommand, in ASCII letters, it returns 2 as well, once the controller
    has been built:
    the bus is opened, then closed, and no register is written nor the
    state file changed. *)
Theorem C6_exit_status_2 (env : Env) (w : World) :
  (forall argv, (List.length argv < 2)%nat ->
     main py_float env argv w = (Some (Returned 2), w) /\
     exit_status (Returned 2) = 2) /\
  (forall a0 a1 args,
     is_ascii a1 = true ->
     known_command (upper a1) = false ->
     smbus_present env = true -> bus_opens env = true ->
     let w' := close (emit (EvBusOpen I2C_BUS true) w) in
     main py_float env (a0 :: a1 :: args) w = (Some (Returned 2), w') /\
     events w' = events w ++ [EvBusOpen I2C_BUS true; EvBusClose] /\
     state_file w' = state_file w /\
     bus_writes w' = bus_writes w /\
     bus_accesses w' = (bus_accesses w + 2)%nat).
Proof.
  split.
  - intros [|a0 [|a1 args]] H; cbn in H; try lia; split; reflexivity.
  - intros a0 a1 args _ Hk Hp Ho w'.
    destruct (known_command_false _ Hk) as (E1 & E2 & E3 & E4 & E5).
    split.
    + unfold main, FanController_init. rewrite Hp, Ho. cbn [negb].
      unfold dispatch. rewrite E1, E2, E3, E4, E5. reflexivity.
    + unfold w', close, emit; cbn [events state_file].
      rewrite <- app_assoc. split; [reflexivity|]. split; [reflexivity|].
      unfold bus_writes, bus_accesses; cbn [events].
      rewrite !filter_app, !length_app. cbn. lia.
Qed.

End ProgramProperties.



(** The theorem on a command line with no subcommand and on one with the
    unknown subcommand "bogus". *)
Lemma C6_exit_status_2_witness :
  let env := mkEnv true true ConfAbsent tick_ok [] in
  main float_of_decimal env ["argononed.py"]%string empty_world =
    (Some (Returned 2), empty_world) /\
  main float_of_decimal env ["argononed.py"; "bogus"]%string empty_world =
    (Some (Returned 2), mkWorld None [EvBusOpen 1 true; EvBusClose]).
Proof.
  cbv zeta. split.
  - apply (proj1 (C6_exit_status_2 float_of_decimal
                    (mkEnv true true ConfAbsent tick_ok []) empty_world)).
    cbn. lia.
  - apply (proj2 (C6_exit_status_2 float_of_decimal
                    (mkEnv true true ConfAbsent tick_ok []) empty_world)
             "argononed.py"%string "bogus"%string []); reflexivity.
Defined.

(** C6 as it is written fails: with the unknown subcommand "bogus" the
    program opens the bus and closes it before it exits with status 2; and
    with FANSPEED and no value it exits with status 1, on the [IndexError]
    of [sys.argv[2]], the bus having been opened as well. *)
Lemma C6_counterexample :
  let env := mkEnv true true ConfAbsent tick_ok [] in
  let r1 := main float_of_decimal env ["argononed.py"; "bogus"]%string empty_world in
  let r2 := main float_of_decimal env ["argononed.py"; "FANSPEED"]%string empty_world in
  option_map exit_status (fst r1) = Some 2 /\
  events (snd r1) = [EvBusOpen 1 true; EvBusClose] /\
  bus_accesses (snd r1) = 2%nat /\
  fst r2 = Some (Raised IndexError) /\
  option_map exit_status (fst r2) = Some 1 /\
  bus_accesses (snd r2) = 2%nat.
Proof. cbv zeta. repeat split. Qed.

(** * Further properties *)

(** ** The base target over any table *)

Lemma lookup_snoc (T : Q) (l : list Step) (x : Step) :
  lookupBaseTarget T (l ++ [x]) = step_target T (lookupBaseTarget T l) x.
Proof. unfold lookupBaseTarget. rewrite fold_left_app. reflexivity. Qed.

(** Either no step is reached and the base target is 0, or the table
    splits at the last step reached, whose speed is the base target. *)
Lemma lookup_split (T : Q) (l : list Step) :
  (Forall (fun s => (T < temp_c s)%Q) l /\ lookupBaseTarget T l = 0) \/
  (exists l1 st l2,
     l = l1 ++ st :: l2 /\ (temp_c st <= T)%Q /\
     Forall (fun s => (T < temp_c s)%Q) l2 /\
     lookupBaseTarget T l = speed st).
Proof.
  induction l as [|x l IH] using rev_ind.
  - left. split; [constructor | reflexivity].
  - rewrite lookup_snoc. unfold step_target.
    destruct (Qle_bool (temp_c x) T) eqn:E; reflect_Q.
    + right. exists l, x, []. repeat split; [exact E | constructor].
    + destruct IH as [[Hn H0] | (l1 & st & l2 & -> & Hr & Hn & Hv)].
      * left. split; [|exact H0].
        apply Forall_app. split; [exact Hn | constructor; [exact E | constructor]].
      * right. exists l1, st, (l2 ++ [x]). rewrite <- app_assoc. cbn [app].
        split; [reflexivity|]. split; [exact Hr|]. split; [|exact Hv].
        apply Forall_app. split; [exact Hn | constructor; [exact E | constructor]].
Qed.

Lemma ascending_app_le (l1 l2 : list Step) (a b : Step) :
  ascending (l1 ++ l2) -> In a l1 -> In b l2 -> (temp_c a <= temp_c b)%Q.
Proof.
  unfold ascending. induction l1 as [|x l1 IH]; intros H Ha Hb; [contradiction|].
  cbn [app] in H. inversion H as [|? ? Hs Hf]; subst.
  destruct Ha as [->|Ha].
  - rewrite Forall_forall in Hf. apply Hf, in_or_app. right. exact Hb.
  - apply IH; assumption.
Qed.

(** X1. The base target is the speed of the last step of the table that
    the temperature reaches, and 0 when it reaches none; over a table in
    ascending order that step has the highest threshold of all the steps
    reached. *)
Theorem X1_lookup_last_reached (T : Q) (l : list Step) :
  (lookupBaseTarget T l = 0 /\ forall s, In s l -> (T < temp_c s)%Q) \/
  (exists l1 st l2,
     l = l1 ++ st :: l2 /\ (temp_c st <= T)%Q /\
     (forall s, In s l2 -> (T < temp_c s)%Q) /\
     lookupBaseTarget T l = speed st /\
     (ascending l ->
      forall s, In s l -> (temp_c s <= T)%Q -> (temp_c s <= temp_c st)%Q)).
Proof.
  destruct (lookup_split T l) as [[Hn H0] | (l1 & st & l2 & E & Hr & Hn & Hv)].
  - left. split; [exact H0|]. apply Forall_forall, Hn.
  - right. exists l1, st, l2. rewrite Forall_forall in Hn.
    split; [exact E|]. split; [exact Hr|]. split; [exact Hn|]. split; [exact Hv|].
    intros Ha s Hin Hs. subst l.
    apply in_app_or in Hin. destruct Hin as [Hin | [<- | Hin]].
    + eapply ascending_app_le; [exact Ha | exact Hin | left; reflexivity].
    + apply Qle_refl.
    + specialize (Hn s Hin). lra.
Qed.

(** The theorem on a table with two steps at 50 degrees, at 52 degrees. *)
Lemma X1_lookup_last_reached_witness :
  let l := [mkStep 45 20; mkStep 50 35; mkStep 50 40; mkStep 60 75] in
  exists l1 st l2,
    l = l1 ++ st :: l2 /\ (temp_c st <= 52)%Q /\
    (forall s, In s l2 -> (52 < temp_c s)%Q) /\
    lookupBaseTarget 52 l = speed st /\
    (ascending l ->
     forall s, In s l -> (temp_c s <= 52)%Q -> (temp_c s <= temp_c st)%Q).
Proof.
  cbv zeta.
  destruct (X1_lookup_last_reached 52
              [mkStep 45 20; mkStep 50 35; mkStep 50 40; mkStep 60 75])
    as [[H0 _] | H].
  - discriminate H0.
  - exact H.
Defined.

Lemma sorted_app_rel (R : Step -> Step -> Prop) (l1 l2 : list Step) (a b : Step) :
  StronglySorted R (l1 ++ l2) -> In a l1 -> In b l2 -> R a b.
Proof.
  induction l1 as [|x l1 IH]; intros H Ha Hb; [contradiction|].
  cbn [app] in H. inversion H as [|? ? Hs Hf]; subst.
  destruct Ha as [->|Ha].
  - rewrite Forall_forall in Hf. apply Hf, in_or_app. right. exact Hb.
  - apply IH; assumption.
Qed.

Lemma fold_target_mono (T1 T2 : Q) (l : list Step) (acc1 acc2 : Z) :
  (T1 <= T2)%Q ->
  StronglySorted (fun a b => speed a <= speed b) l ->
  acc1 <= acc2 ->
  Forall (fun s => acc2 <= speed s) l ->
  fold_left (step_target T1) l acc1 <= fold_left (step_target T2) l acc2.
Proof.
  intros HT. revert acc1 acc2.
  induction l as [|st l IH]; intros acc1 acc2 Hs Ha Hf; [exact Ha|].
  cbn [fold_left]. inversion Hs as [|? ? Hs' Hst]; subst.
  inversion Hf as [|? ? Hst2 Hf']; subst.
  unfold step_target at 2 4.
  destruct (Qle_bool (temp_c st) T1) eqn:E1;
    destruct (Qle_bool (temp_c st) T2) eqn:E2; reflect_Q.
  - apply IH; [exact Hs' | lia | exact Hst].
  - exfalso. lra.
  - apply IH; [exact Hs' | lia | exact Hst].
  - apply IH; assumption.
Qed.

(** X2. Over a table whose speeds do not decrease along it and are not
    negative, the base target does not decrease with the temperature. *)
Theorem X2_lookup_monotone (T1 T2 : Q) (l : list Step) :
  speeds_ascending l -> (T1 <= T2)%Q ->
  lookupBaseTarget T1 l <= lookupBaseTarget T2 l.
Proof.
  intros [Hs Hp] HT. unfold lookupBaseTarget.
  apply fold_target_mono; [exact HT | exact Hs | lia | exact Hp].
Qed.

Lemma default_steps_speeds_ascending : speeds_ascending default_steps.
Proof.
  split; unfold default_steps.
  - repeat (constructor; [| repeat (constructor; [cbn; lia|]); constructor]).
    constructor.
  - repeat (constructor; [cbn; lia|]). constructor.
Qed.

(** The theorem on the default table, between 47.5 and 61 degrees. *)
Lemma X2_lookup_monotone_witness :
  lookupBaseTarget (475 # 10) default_steps <= lookupBaseTarget 61 default_steps.
Proof.
  apply (X2_lookup_monotone (475 # 10) 61 default_steps).
  - exact default_steps_speeds_ascending.
  - discriminate.
Defined.

(** ** The hysteresis test over a rising table *)

Lemma rising_unique (l : list Step) (a b : Step) :
  StronglySorted (fun a b => speed a < speed b) l ->
  In a l -> In b l -> speed a = speed b -> a = b.
Proof.
  induction l as [|x l IH]; intros Hs Ha Hb He; [contradiction|].
  inversion Hs as [|? ? Hs' Hf]; subst. rewrite Forall_forall in Hf.
  destruct Ha as [->|Ha], Hb as [->|Hb].
  - reflexivity.
  - specialize (Hf b Hb). lia.
  - specialize (Hf a Ha). lia.
  - apply IH; assumption.
Qed.

(** Over a table whose speeds grow, every step reached commands at most the
    base target. *)
Lemma lookup_ge_reached (T : Q) (l : list Step) (s : Step) :
  StronglySorted (fun a b => speed a < speed b) l ->
  In s l -> (temp_c s <= T)%Q -> speed s <= lookupBaseTarget T l.
Proof.
  intros Hs Hin Hr.
  destruct (lookup_split T l) as [[Hn _] | (l1 & st & l2 & E & _ & Hn & Hv)];
    rewrite Forall_forall in Hn.
  - specialize (Hn s Hin). lra.
  - rewrite Hv. subst l.
    apply in_app_or in Hin. destruct Hin as [Hin | [<- | Hin]].
    + apply Z.lt_le_incl.
      apply (sorted_app_rel _ l1 (st :: l2) s st Hs Hin). left. reflexivity.
    + lia.
    + specialize (Hn s Hin). lra.
Qed.

(** The threshold looked up for the base target itself is one the
    temperature has reached, or the temperature. *)
Lemma threshold_of_base_reached (T : Q) (l : list Step) :
  rising l -> (threshold_of (lookupBaseTarget T l) l T <= T)%Q.
Proof.
  intros [Hs Hp]. unfold threshold_of.
  destruct (find _ l) as [s'|] eqn:F; [|apply Qle_refl].
  apply find_some in F. destruct F as [Hin Hv]. apply Z.eqb_eq in Hv.
  destruct (lookup_split T l) as [[_ H0] | (l1 & st & l2 & E & Hr & _ & Hw)].
  - rewrite Forall_forall in Hp. specialize (Hp s' Hin). lia.
  - assert (s' = st) as ->.
    { apply (rising_unique l); [exact Hs | exact Hin | | lia].
      subst l. apply in_or_app. right. left. reflexivity. }
    exact Hr.
Qed.

(** The threshold looked up for a speed above the base target is one the
    temperature has not reached, or the temperature. *)
Lemma threshold_of_above_unreached (T : Q) (l : list Step) (v : Z) :
  rising l -> lookupBaseTarget T l < v -> (T <= threshold_of v l T)%Q.
Proof.
  intros [Hs Hp] Hlt. unfold threshold_of.
  destruct (find _ l) as [s'|] eqn:F; [|apply Qle_refl].
  apply find_some in F. destruct F as [Hin Hv]. apply Z.eqb_eq in Hv.
  destruct (Qlt_le_dec T (temp_c s')) as [H|H]; [apply Qlt_le_weak, H|].
  pose proof (lookup_ge_reached T l s' Hs Hin H). lia.
Qed.

(** Over a rising table neither test of the hysteresis holds. *)
Lemma calc_target_rising (T : Q) (l : list Step) (last : option Z) :
  rising l -> calc_target T l last = lookupBaseTarget T l.
Proof.
  intros Hr. destruct last as [v|]; [|reflexivity].
  unfold calc_target, HYSTERESIS.
  assert (E1 : Qltb T (threshold_of (lookupBaseTarget T l) l T - 4) = false).
  { apply Qltb_false. pose proof (threshold_of_base_reached T l Hr). lra. }
  rewrite E1, andb_false_r.
  destruct (lookupBaseTarget T l <? v) eqn:Hlt; [|reflexivity].
  apply Z.ltb_lt in Hlt.
  assert (E2 : Qltb (threshold_of v l T + 4) T = false).
  { apply Qltb_false. pose proof (threshold_of_above_unreached T l v Hr Hlt). lra. }
  rewrite E2. reflexivity.
Qed.

(** X3. Over every rising table (speeds positive and strictly growing
    along the table) the hysteresis test changes nothing: [calc_target] is
    the base target at every temperature and for every last speed. *)
Theorem X3_hysteresis_inert_on_rising_tables
  (T : Q) (l : list Step) (last : option Z) :
  rising l -> calc_target T l last = lookupBaseTarget T l.
Proof. apply calc_target_rising. Qed.


(** The theorem on the table 40->30, 50->60, 70->90 at 48 degrees with
    last speed 60. *)
Lemma X3_hysteresis_inert_on_rising_tables_witness :
  calc_target 48 [mkStep 40 30; mkStep 50 60; mkStep 70 90] (Some 60) =
  lookupBaseTarget 48 [mkStep 40 30; mkStep 50 60; mkStep 70 90].
Proof.
  apply (X3_hysteresis_inert_on_rising_tables 48
           [mkStep 40 30; mkStep 50 60; mkStep 70 90] (Some 60)).
  split.
  - repeat (constructor; [| repeat (constructor; [cbn; lia|]); constructor]).
    constructor.
  - repeat (constructor; [cbn; lia|]). constructor.
Defined.

(** ** What [calc_target] can return *)

Lemma calc_target_base_or_last (T : Q) (l : list Step) (last : option Z) :
  calc_target T l last = lookupBaseTarget T l \/
  last = Some (calc_target T l last).
Proof.
  destruct last as [v|]; [|left; reflexivity].
  unfold calc_target.
  destruct (_ && _); [right; reflexivity|].
  destruct (_ && _); [right; reflexivity | left; reflexivity].
Qed.

Lemma lookup_zero_or_step (T : Q) (l : list Step) :
  lookupBaseTarget T l = 0 \/
  exists st, In st l /\ (temp_c st <= T)%Q /\ lookupBaseTarget T l = speed st.
Proof.
  destruct (lookup_split T l) as [[_ H0] | (l1 & st & l2 & E & Hr & _ & Hv)].
  - left. exact H0.
  - right. exists st. split; [|split; assumption].
    subst l. apply in_or_app. right. left. reflexivity.
Qed.

(** X4. [calc_target] returns the last speed, 0, or the speed of a step of
    the table that the temperature reaches, and nothing else; so its result
    is within 0..100 when the speeds of the table and the last speed are. *)
Theorem X4_calc_target_range (T : Q) (l : list Step) (last : option Z) :
  (last = Some (calc_target T l last) \/
   calc_target T l last = 0 \/
   exists st, In st l /\ (temp_c st <= T)%Q /\ calc_target T l last = speed st) /\
  (Forall (fun s => 0 <= speed s <= 100) l ->
   (forall v, last = Some v -> 0 <= v <= 100) ->
   0 <= calc_target T l last <= 100).
Proof.
  assert (A : last = Some (calc_target T l last) \/
              calc_target T l last = 0 \/
              exists st, In st l /\ (temp_c st <= T)%Q /\
                         calc_target T l last = speed st).
  { destruct (calc_target_base_or_last T l last) as [E|E]; [|left; exact E].
    right. rewrite E. apply lookup_zero_or_step. }
  split; [exact A|].
  intros Hl Hv. rewrite Forall_forall in Hl.
  destruct A as [E | [E | (st & Hin & _ & E)]].
  - apply Hv. exact E.
  - lia.
  - rewrite E. apply Hl. exact Hin.
Qed.

(** The theorem on the default table at 58 degrees with last speed 35. *)
Lemma X4_calc_target_range_witness :
  0 <= calc_target 58 default_steps (Some 35) <= 100.
Proof.
  apply (X4_calc_target_range 58 default_steps (Some 35)).
  - unfold default_steps. repeat (constructor; [cbn; lia|]). constructor.
  - intros v [= <-]. lia.
Defined.

(** ** What a call of [set_speed] does to the world *)

Lemma replay_snoc (init : option Z) (evs : list event) (e : event) :
  replay init (evs ++ [e]) =
    match e with
    | EvBusWrite _ _ v true => Some v
    | _ => replay init evs
    end.
Proof. unfold replay. rewrite fold_left_app. reflexivity. Qed.

Lemma replay_app (init : option Z) (a b : list event) :
  replay init (a ++ b) = replay (replay init a) b.
Proof. unfold replay. apply fold_left_app. Qed.

(** The events a call adds, in the three ways it can go. *)
Lemma set_speed_cases (hw : bool) (how : fs_outcome) (v : Z)
  (fan : FanController) (w : World) :
  (last_speed fan = Some (clamp v) /\
   set_speed hw how v fan w = (Returned tt, fan, w)) \/
  (last_speed fan <> Some (clamp v) /\ hw = true /\
   set_speed hw how v fan w =
     (Returned tt, mkFan (Some (clamp v)),
      emit (EvPrintSpeed (clamp v))
        (write_state how (clamp v)
           (emit (EvBusWrite I2C_ADDR FAN_REG (clamp v) true) w)))) \/
  (last_speed fan <> Some (clamp v) /\ hw = false /\
   set_speed hw how v fan w =
     (Raised OSError, fan, emit (EvBusWrite I2C_ADDR FAN_REG (clamp v) false) w)).
Proof.
  destruct (last_is fan (clamp v)) eqn:E.
  - left. apply last_is_true in E. split; [exact E|]. apply set_speed_same, E.
  - apply last_is_false in E. destruct hw.
    + right; left. split; [exact E|]. split; [reflexivity|].
      apply set_speed_change, E.
    + right; right. split; [exact E|]. split; [reflexivity|].
      apply set_speed_hw_raises, E.
Qed.

(** The events a call adds: well formed, and the speed remembered after
    the call is the one the fan register holds after them. *)
Lemma set_speed_events (hw : bool) (how : fs_outcome) (v : Z)
  (fan : FanController) (w : World) :
  exists new,
    events (snd (set_speed hw how v fan w)) = events w ++ new /\
    Forall well_formed_event new /\
    last_speed (snd (fst (set_speed hw how v fan w))) = replay (last_speed fan) new /\
    filter is_open_ok new = [] /\ filter is_close new = [].
Proof.
  pose proof (clamp_range v) as Hc.
  destruct (set_speed_cases hw how v fan w)
    as [(_ & ->) | [(_ & _ & ->) | (_ & _ & ->)]]; cbn [fst snd].
  - exists []. rewrite app_nil_r. repeat split; constructor.
  - exists [EvBusWrite I2C_ADDR FAN_REG (clamp v) true;
            EvStateWrite (clamp v) how; EvPrintSpeed (clamp v)].
    split.
    + unfold emit at 1; cbn [events]. rewrite write_state_events.
      unfold emit; cbn [events]. rewrite <- !app_assoc. reflexivity.
    + repeat split; repeat constructor; lia.
  - exists [EvBusWrite I2C_ADDR FAN_REG (clamp v) false].
    repeat split; repeat constructor; lia.
Qed.

(** X5. A call of [set_speed] that returns leaves the controller
    remembering the clamped request; and a call changes the state file only
    when it made a bus write and that write succeeded, in which case the
    controller remembers the clamped request.  A call makes at most one bus
    write, and a state write only together with a bus write. *)
Theorem X5_set_speed_postcondition (hw : bool) (how : fs_outcome) (v : Z)
  (fan fan' : FanController) (w w' : World) (r : outcome unit) :
  set_speed hw how v fan w = (r, fan', w') ->
  (r = Returned tt -> last_speed fan' = Some (clamp v)) /\
  (state_file w' <> state_file w ->
   hw = true /\ last_speed fan <> Some (clamp v) /\
   last_speed fan' = Some (clamp v)) /\
  (bus_writes w' <= S (bus_writes w))%nat /\
  (state_writes w' + bus_writes w <= bus_writes w' + state_writes w)%nat.
Proof.
  intros E.
  destruct (set_speed_cases hw how v fan w)
    as [(Hl & E') | [(Hl & Hh & E') | (Hl & Hh & E')]];
    rewrite E' in E; injection E as <- <- <-.
  - split; [intros _; exact Hl|]. split; [intros H; contradiction|]. lia.
  - split; [reflexivity|]. split; [intros _; auto|].
    rewrite bus_writes_emit, bus_writes_write_state, bus_writes_emit.
    rewrite state_writes_emit, state_writes_write_state, state_writes_emit.
    cbn [is_bus_write is_state_write]. lia.
  - split; [discriminate|]. split; [intros H; cbn in H; contradiction|].
    rewrite bus_writes_emit, state_writes_emit.
    cbn [is_bus_write is_state_write]. lia.
Qed.

(** The theorem on a controller at 20 asked for 130, the state file
    holding 20. *)
Lemma X5_set_speed_postcondition_witness :
  last_speed (mkFan (Some 100)) = Some (clamp 130).
Proof.
  refine (proj1 (X5_set_speed_postcondition true FsOk 130
                   (mkFan (Some 20)) (mkFan (Some 100))
                   (mkWorld (Some "20"%string) [])
                   (mkWorld (Some "100"%string)
                      [EvBusWrite 26 128 100 true; EvStateWrite 100 FsOk;
                       EvPrintSpeed 100])
                   (Returned tt) _) _); reflexivity.
Defined.

(** ** What the service loop and the program do to the world *)

Lemma emit_events (e : event) (w : World) : events (emit e w) = events w ++ [e].
Proof. reflexivity. Qed.

(** The events the loop adds: well formed bus writes, no opening nor
    closing of the bus, and the speed remembered at the end is the one the
    fan register holds after them. *)
Lemma service_loop_events (steps : list Step) (ticks : list Tick)
  (fan : FanController) (w : World) :
  exists new,
    events (snd (service_loop steps ticks fan w)) = events w ++ new /\
    Forall well_formed_event new /\
    last_speed (snd (fst (service_loop steps ticks fan w))) =
      replay (last_speed fan) new /\
    filter is_open_ok new = [] /\ filter is_close new = [].
Proof.
  revert fan w. induction ticks as [|t ticks IH]; intros fan w.
  - exists []. rewrite app_nil_r. repeat split; constructor.
  - cbn [service_loop]. destruct (stop t).
    + exists []. rewrite app_nil_r. repeat split; constructor.
    + set (target := calc_target (read_cpu_temp (sensor t)) steps (last_speed fan)).
      destruct (set_speed_events (hw_ok t) (fs_how t) target fan (emit EvTempRead w))
        as (n1 & E1 & W1 & R1 & O1 & C1).
      destruct (set_speed (hw_ok t) (fs_how t) target fan (emit EvTempRead w))
        as [[[u|e] fan'] w'] eqn:S; cbn [fst snd] in E1, R1.
      * destruct (IH fan' (emit EvSleep w')) as (n2 & E2 & W2 & R2 & O2 & C2).
        exists ((EvTempRead :: n1) ++ EvSleep :: n2).
        split; [|split; [|split; [|split]]].
        -- rewrite E2, emit_events, E1, emit_events.
           rewrite <- !app_assoc. reflexivity.
        -- apply Forall_app. split; constructor; try exact I; assumption.
        -- rewrite R2, R1, replay_app. reflexivity.
        -- rewrite filter_app. cbn [filter is_open_ok]. rewrite O1, O2. reflexivity.
        -- rewrite filter_app. cbn [filter is_close]. rewrite C1, C2. reflexivity.
      * exists (EvTempRead :: n1). cbn [fst snd].
        split; [|split; [|split; [|split]]].
        -- rewrite E1, emit_events, <- app_assoc. reflexivity.
        -- constructor; [exact I | exact W1].
        -- exact R1.
        -- cbn [filter is_open_ok]. exact O1.
        -- cbn [filter is_close]. exact C1.
Qed.

(** X6. Whatever the table, the turns and the answers of the outside, the
    speed the controller remembers when the service loop stops, raises or
    is left running is the value of the last bus write that succeeded
    during the loop, and the speed it started with when none did; and the
    loop neither opens nor closes the bus. *)
Theorem X6_service_loop_tracks_the_fan (steps : list Step) (ticks : list Tick)
  (fan : FanController) (w : World) :
  exists new,
    events (snd (service_loop steps ticks fan w)) = events w ++ new /\
    last_speed (snd (fst (service_loop steps ticks fan w))) =
      replay (last_speed fan) new /\
    filter is_open_ok new = [] /\ filter is_close new = [].
Proof.
  destruct (service_loop_events steps ticks fan w) as (new & E & _ & R & O & C).
  exists new. repeat split; assumption.
Qed.

Lemma Forall_wf_single (e : event) :
  well_formed_event e -> Forall well_formed_event [e].
Proof. intros H. constructor; [exact H | constructor]. Qed.

Section ProgramEvents.

Variable py_float : string -> option pyfloat.




End ProgramEvents.

(** ** [str] and [int], [write_state] and [read_state] *)

Lemma lstrip_no_space (s : string) : no_space s = true -> lstrip s = s.
Proof.
  destruct s as [|c s]; [reflexivity|]. cbn [no_space lstrip].
  destruct (is_space c); [discriminate | reflexivity].
Qed.

Lemma rstrip_no_space (s : string) : no_space s = true -> rstrip s = s.
Proof.
  induction s as [|c s IH]; [reflexivity|]. cbn [no_space rstrip].
  destruct (is_space c) eqn:E; [discriminate|]. cbn [negb andb]. intros H.
  rewrite (IH H). destruct s; reflexivity.
Qed.

Lemma strip_no_space (s : string) : no_space s = true -> strip s = s.
Proof.
  intros H. unfold strip. rewrite (lstrip_no_space s H). apply rstrip_no_space, H.
Qed.

Lemma no_space_uint (d : Decimal.uint) :
  no_space (NilEmpty.string_of_uint d) = true.
Proof. induction d; cbn [NilEmpty.string_of_uint no_space]; auto. Qed.

Lemma length_uint (d : Decimal.uint) :
  String.length (NilEmpty.string_of_uint d) = Decimal.nb_digits d.
Proof.
  induction d; cbn [NilEmpty.string_of_uint String.length Decimal.nb_digits];
    congruence.
Qed.

(** Reading the digits of [d] after a first digit, from the value [acc]. *)
Lemma int_digits_acc (d : Decimal.uint) (acc : positive) (n : nat) :
  int_digits (NilEmpty.string_of_uint d) true (Z.pos acc) n =
    Some (Z.pos (Pos.of_uint_acc d acc), (n + Decimal.nb_digits d)%nat).
Proof.
  revert acc n.
  induction d as [|d IH|d IH|d IH|d IH|d IH|d IH|d IH|d IH|d IH|d IH];
    intros acc n;
    cbn [NilEmpty.string_of_uint int_digits Decimal.nb_digits Pos.of_uint_acc].
  - rewrite Nat.add_0_r. reflexivity.
  - change (digit_of "0") with (Some 0). cbv beta iota.
    replace (10 * Z.pos acc + 0) with (Z.pos (10 * acc)) by lia.
    rewrite IH. do 2 f_equal. lia.
  - change (digit_of "1") with (Some 1). cbv beta iota.
    replace (10 * Z.pos acc + 1) with (Z.pos (1 + 10 * acc)) by lia.
    rewrite IH. do 2 f_equal. lia.
  - change (digit_of "2") with (Some 2). cbv beta iota.
    replace (10 * Z.pos acc + 2) with (Z.pos (2 + 10 * acc)) by lia.
    rewrite IH. do 2 f_equal. lia.
  - change (digit_of "3") with (Some 3). cbv beta iota.
    replace (10 * Z.pos acc + 3) with (Z.pos (3 + 10 * acc)) by lia.
    rewrite IH. do 2 f_equal. lia.
  - change (digit_of "4") with (Some 4). cbv beta iota.
    replace (10 * Z.pos acc + 4) with (Z.pos (4 + 10 * acc)) by lia.
    rewrite IH. do 2 f_equal. lia.
  - change (digit_of "5") with (Some 5). cbv beta iota.
    replace (10 * Z.pos acc + 5) with (Z.pos (5 + 10 * acc)) by lia.
    rewrite IH. do 2 f_equal. lia.
  - change (digit_of "6") with (Some 6). cbv beta iota.
    replace (10 * Z.pos acc + 6) with (Z.pos (6 + 10 * acc)) by lia.
    rewrite IH. do 2 f_equal. lia.
  - change (digit_of "7") with (Some 7). cbv beta iota.
    replace (10 * Z.pos acc + 7) with (Z.pos (7 + 10 * acc)) by lia.
    rewrite IH. do 2 f_equal. lia.
  - change (digit_of "8") with (Some 8). cbv beta iota.
    replace (10 * Z.pos acc + 8) with (Z.pos (8 + 10 * acc)) by lia.
    rewrite IH. do 2 f_equal. lia.
  - change (digit_of "9") with (Some 9). cbv beta iota.
    replace (10 * Z.pos acc + 9) with (Z.pos (9 + 10 * acc)) by lia.
    rewrite IH. do 2 f_equal. lia.
Qed.

(** Reading the digits of [d] from 0: leading zeros leave the value at 0. *)
Lemma int_digits_zero (d : Decimal.uint) (b : bool) (n : nat) :
  d <> Decimal.Nil \/ b = true ->
  int_digits (NilEmpty.string_of_uint d) b 0 n =
    Some (Z.of_N (Pos.of_uint d), (n + Decimal.nb_digits d)%nat).
Proof.
  revert b n.
  induction d as [|d IH|d IH|d IH|d IH|d IH|d IH|d IH|d IH|d IH|d IH];
    intros b n H;
    cbn [NilEmpty.string_of_uint int_digits Decimal.nb_digits Pos.of_uint].
  - destruct H as [H| ->]; [contradiction|]. rewrite Nat.add_0_r. reflexivity.
  - change (digit_of "0") with (Some 0). cbv beta iota. change (10 * 0 + 0) with 0.
    rewrite IH by (right; reflexivity). do 2 f_equal. lia.
  - change (digit_of "1") with (Some 1). cbv beta iota. change (10 * 0 + 1) with (Z.pos 1).
    rewrite int_digits_acc. do 2 f_equal. lia.
  - change (digit_of "2") with (Some 2). cbv beta iota. change (10 * 0 + 2) with (Z.pos 2).
    rewrite int_digits_acc. do 2 f_equal. lia.
  - change (digit_of "3") with (Some 3). cbv beta iota. change (10 * 0 + 3) with (Z.pos 3).
    rewrite int_digits_acc. do 2 f_equal. lia.
  - change (digit_of "4") with (Some 4). cbv beta iota. change (10 * 0 + 4) with (Z.pos 4).
    rewrite int_digits_acc. do 2 f_equal. lia.
  - change (digit_of "5") with (Some 5). cbv beta iota. change (10 * 0 + 5) with (Z.pos 5).
    rewrite int_digits_acc. do 2 f_equal. lia.
  - change (digit_of "6") with (Some 6). cbv beta iota. change (10 * 0 + 6) with (Z.pos 6).
    rewrite int_digits_acc. do 2 f_equal. lia.
  - change (digit_of "7") with (Some 7). cbv beta iota. change (10 * 0 + 7) with (Z.pos 7).
    rewrite int_digits_acc. do 2 f_equal. lia.
  - change (digit_of "8") with (Some 8). cbv beta iota. change (10 * 0 + 8) with (Z.pos 8).
    rewrite int_digits_acc. do 2 f_equal. lia.
  - change (digit_of "9") with (Some 9). cbv beta iota. change (10 * 0 + 9) with (Z.pos 9).
    rewrite int_digits_acc. do 2 f_equal. lia.
Qed.

(** The digits [str] writes for a positive number read back as it. *)
Lemma int_unsigned_to_uint (p : positive) :
  (Decimal.nb_digits (Pos.to_uint p) <= int_max_str_digits)%nat ->
  int_unsigned (NilEmpty.string_of_uint (Pos.to_uint p)) = Some (Z.pos p).
Proof.
  intros H. unfold int_unsigned.
  rewrite int_digits_zero by (left; apply Unsigned.to_uint_nonnil).
  rewrite Unsigned.of_to. cbn [Nat.add Z.of_N].
  apply Nat.leb_le in H. rewrite H. reflexivity.
Qed.

Lemma is_int_space_is_space (c : ascii) :
  is_int_space c = true -> is_space c = true.
Proof.
  unfold is_int_space, is_space. intros H.
  apply orb_true_iff in H. apply orb_true_iff.
  destruct H as [H|H]; [left; exact H|right].
  apply Nat.eqb_eq in H. rewrite H. reflexivity.
Qed.

Lemma not_space_not_int_space (c : ascii) :
  is_space c = false -> is_int_space c = false.
Proof.
  intros H. destruct (is_int_space c) eqn:E; [|reflexivity].
  apply is_int_space_is_space in E. congruence.
Qed.

Lemma int_lstrip_no_space (s : string) : no_space s = true -> int_lstrip s = s.
Proof.
  destruct s as [|c s]; [reflexivity|]. cbn [no_space int_lstrip].
  destruct (is_space c) eqn:E; [discriminate|].
  rewrite (not_space_not_int_space c E). reflexivity.
Qed.

Lemma int_rstrip_no_space (s : string) : no_space s = true -> int_rstrip s = s.
Proof.
  induction s as [|c s IH]; [reflexivity|]. cbn [no_space int_rstrip].
  destruct (is_space c) eqn:E; [discriminate|]. cbn [negb andb]. intros H.
  rewrite (IH H), (not_space_not_int_space c E). destruct s; reflexivity.
Qed.

Lemma int_strip_no_space (s : string) : no_space s = true -> int_strip s = s.
Proof.
  intros H. unfold int_strip. rewrite (int_lstrip_no_space s H).
  apply int_rstrip_no_space, H.
Qed.

Lemma py_int_of_digits (d : Decimal.uint) :
  d <> Decimal.Nil ->
  Py.int (NilEmpty.string_of_uint d) = int_unsigned (NilEmpty.string_of_uint d).
Proof.
  intros H. unfold Py.int. rewrite int_strip_no_space by apply no_space_uint.
  destruct d; [contradiction | reflexivity ..].
Qed.

Lemma py_int_of_minus_digits (d : Decimal.uint) :
  Py.int (String "-" (NilEmpty.string_of_uint d)) =
    option_map Z.opp (int_unsigned (NilEmpty.string_of_uint d)).
Proof.
  unfold Py.int. rewrite int_strip_no_space; [reflexivity|].
  cbn [no_space]. rewrite no_space_uint. reflexivity.
Qed.

Lemma str_pos (p : positive) :
  str (Z.pos p) = NilEmpty.string_of_uint (Pos.to_uint p).
Proof.
  unfold str. cbn [Z.to_int NilZero.string_of_int]. unfold NilZero.string_of_uint.
  pose proof (Unsigned.to_uint_nonnil p) as H.
  destruct (Pos.to_uint p); [contradiction | reflexivity ..].
Qed.

Lemma str_neg (p : positive) :
  str (Z.neg p) = String "-" (NilEmpty.string_of_uint (Pos.to_uint p)).
Proof.
  unfold str. cbn [Z.to_int NilZero.string_of_int]. unfold NilZero.string_of_uint.
  pose proof (Unsigned.to_uint_nonnil p) as H.
  destruct (Pos.to_uint p); [contradiction | reflexivity ..].
Qed.

Lemma no_space_str (z : Z) : no_space (str z) = true.
Proof.
  destruct z as [|p|p].
  - reflexivity.
  - rewrite str_pos. apply no_space_uint.
  - rewrite str_neg. cbn [no_space]. rewrite no_space_uint. reflexivity.
Qed.

(** [int(str(z))] is [z], for every integer of at most 4300 digits. *)
Lemma py_int_str (z : Z) :
  (String.length (str (Z.abs z)) <= int_max_str_digits)%nat ->
  Py.int (str z) = Some z.
Proof.
  destruct z as [|p|p]; cbn [Z.abs]; intros H.
  - reflexivity.
  - rewrite str_pos in H |- *. rewrite length_uint in H.
    rewrite py_int_of_digits by apply Unsigned.to_uint_nonnil.
    apply int_unsigned_to_uint, H.
  - rewrite str_pos in H. rewrite length_uint in H. rewrite str_neg.
    rewrite py_int_of_minus_digits, (int_unsigned_to_uint p H). reflexivity.
Qed.

(** X8. A state file written without failure reads back as the speed
    written: [read_state] after [write_state] gives the integer again, for
    every integer whose decimal text has at most 4300 digits (the limit of
    [int] on the length of a number). *)
Theorem X8_state_round_trip (z : Z) (w : World) :
  (String.length (str (Z.abs z)) <= int_max_str_digits)%nat ->
  read_state (write_state FsOk z w) = Some z /\
  Py.int (str z) = Some z.
Proof.
  intros H. split; [|apply py_int_str, H].
  unfold read_state, write_state, emit; cbn [state_file].
  rewrite strip_no_space by apply no_space_str.
  apply py_int_str, H.
Qed.

(** The theorem for the speed 75; and for -12, which [set_speed] never
    writes but [write_state] would. *)
Lemma X8_state_round_trip_witness :
  read_state (write_state FsOk 75 empty_world) = Some 75 /\
  read_state (write_state FsOk (-12) empty_world) = Some (-12).
Proof.
  split.
  - refine (proj1 (X8_state_round_trip 75 empty_world _)).
    apply Nat.leb_le. reflexivity.
  - refine (proj1 (X8_state_round_trip (-12) empty_world _)).
    apply Nat.leb_le. reflexivity.
Defined.

(** A property of every integer from 0 to 100, from its check on each. *)
Lemma upto_forall (n : nat) (f : Z -> bool) :
  forallb f (upto n) = true ->
  forall z, 0 <= z < Z.of_nat n -> f z = true.
Proof.
  intros H z Hz. rewrite forallb_forall in H. apply H.
  unfold upto. apply in_map_iff. exists (Z.to_nat z).
  split; [lia|]. apply in_seq. lia.
Qed.

Lemma clamp_text_short (v : Z) :
  (String.length (str (Z.abs (clamp v))) <= int_max_str_digits)%nat.
Proof.
  pose proof (clamp_range v) as H.
  assert (E : (String.length (str (Z.abs (clamp v))) <=? 3)%nat = true).
  { apply (upto_forall 101 (fun z => (String.length (str (Z.abs z)) <=? 3)%nat));
      [vm_compute; reflexivity | lia]. }
  apply Nat.leb_le in E. unfold int_max_str_digits. lia.
Qed.

(** X9. Restart after a change of speed. When [set_speed] changes the
    speed and the state file is written without failure, a controller
    built afterwards on that world remembers the speed the first one
    commanded.  When opening the state file fails, the file is as before
    and the new controller remembers what the file held, not the speed now
    on the fan; when the write fails after the file was truncated, the new
    controller remembers nothing. *)
Theorem X9_restart_after_change (how : fs_outcome) (v : Z)
  (fan : FanController) (w : World) :
  last_speed fan <> Some (clamp v) ->
  exists fan1 w1 w2,
    set_speed true how v fan w = (Returned tt, fan1, w1) /\
    last_speed fan1 = Some (clamp v) /\
    FanController_init true true w1 =
      (Returned (mkFan (match how with
                        | FsOk => Some (clamp v)
                        | FsOpenFails => read_state w
                        | FsWriteFails => None
                        end)), w2).
Proof.
  intros H. do 3 eexists.
  split; [apply set_speed_change, H|]. split; [reflexivity|].
  rewrite FanController_init_ok. do 2 f_equal.
  destruct how.
  - f_equal. unfold read_state. cbn [write_state emit state_file].
    rewrite strip_no_space by apply no_space_str.
    apply py_int_str, clamp_text_short.
  - reflexivity.
  - reflexivity.
Qed.

(** The theorem for a controller at 20 asked for 75, with the state file
    written, and with the state file holding 20 and failing to open. *)
Lemma X9_restart_after_change_witness :
  (exists fan1 w1 w2,
     set_speed true FsOk 75 (mkFan (Some 20)) (mkWorld (Some "20"%string) []) =
       (Returned tt, fan1, w1) /\
     last_speed fan1 = Some 75 /\
     FanController_init true true w1 = (Returned (mkFan (Some 75)), w2)) /\
  (exists fan1 w1 w2,
     set_speed true FsOpenFails 75 (mkFan (Some 20)) (mkWorld (Some "20"%string) []) =
       (Returned tt, fan1, w1) /\
     last_speed fan1 = Some 75 /\
     FanController_init true true w1 = (Returned (mkFan (Some 20)), w2)).
Proof.
  split.
  - apply (X9_restart_after_change FsOk 75 (mkFan (Some 20))
             (mkWorld (Some "20"%string) [])).
    cbn. discriminate.
  - apply (X9_restart_after_change FsOpenFails 75 (mkFan (Some 20))
             (mkWorld (Some "20"%string) [])).
    cbn. discriminate.
Defined.

(** ** The service loop while the temperature stays within one step *)

Lemma bus_writes_emit_other (e : event) (w : World) :
  is_bus_write e = false -> bus_writes (emit e w) = bus_writes w.
Proof. intros H. rewrite bus_writes_emit, H. lia. Qed.




(** ** The command line *)



Section CommandLine.

Variable py_float : string -> option pyfloat.


(** X12. STATUS only reports. With a bus that opens, whatever the sensor
    and the configuration hold and whatever ASCII text the state file
    holds, and however the run ends,
    the program makes no bus write and no state write, leaves the state
    file as it was and reads the temperature once.  When [parse_conf]
    returns a table it opens the bus, reads the temperature, prints one
    status line, whose last speed is the one the state file gives, and
    closes the bus; when [parse_conf] raises, the exception leaves the
    program after the bus is closed, nothing being printed. *)
Theorem X12_status_is_read_only
  (env : Env) (a0 a1 : string) (args : list string) (w : World) :
  upper a1 = "STATUS"%string -> ascii_state w = true ->
  smbus_present env = true -> bus_opens env = true ->
  let r := main py_float env (a0 :: a1 :: args) w in
  bus_writes (snd r) = bus_writes w /\
  state_writes (snd r) = state_writes w /\
  state_file (snd r) = state_file w /\
  temp_reads (snd r) = S (temp_reads w) /\
  (forall steps,
     parse_conf py_float (conf env) = Some (Returned steps) ->
     exists T target,
       events (snd r) =
         events w ++ [EvBusOpen I2C_BUS true; EvTempRead;
                      EvPrintStatus T target (read_state w); EvBusClose]) /\
  (forall e,
     parse_conf py_float (conf env) = Some (Raised e) ->
     fst r = Some (Raised e) /\
     events (snd r) =
       events w ++ [EvBusOpen I2C_BUS true; EvTempRead; EvBusClose]).
Proof.
  intros Hc _ Hp Ho r.
  assert (E : r =
    match parse_conf py_float (conf env) with
    | None => (None, emit EvTempRead (emit (EvBusOpen I2C_BUS true) w))
    | Some (Raised e) =>
        (Some (Raised e),
         close (emit EvTempRead (emit (EvBusOpen I2C_BUS true) w)))
    | Some (Returned steps) =>
        (Some (Returned 0),
         close (emit (EvPrintStatus (read_cpu_temp (sensor (shot env)))
                        (calc_target (read_cpu_temp (sensor (shot env))) steps
                           (read_state w))
                        (read_state w))
                  (emit EvTempRead (emit (EvBusOpen I2C_BUS true) w))))
    end).
  { unfold r, main, FanController_init. rewrite Hc, Hp, Ho. cbn [negb].
    unfold dispatch. cbn [String.eqb Ascii.eqb Bool.eqb andb].
    destruct (parse_conf py_float (conf env)) as [[steps|e]|]; reflexivity. }
  rewrite E. clear E r.
  destruct (parse_conf py_float (conf env)) as [[steps|e]|]; cbn [fst snd];
    unfold close;
    rewrite ?bus_writes_emit, ?state_writes_emit, ?temp_reads_emit;
    cbn [is_bus_write is_state_write is_temp_read emit state_file].
  - split; [lia|]. split; [lia|]. split; [reflexivity|]. split; [lia|].
    split.
    + intros steps' _. do 2 eexists.
      rewrite !emit_events, <- !app_assoc. reflexivity.
    + intros e [=].
  - split; [lia|]. split; [lia|]. split; [reflexivity|]. split; [lia|].
    split.
    + intros steps' [=].
    + intros e' [= <-]. split; [reflexivity|].
      rewrite !emit_events, <- !app_assoc. reflexivity.
  - split; [lia|]. split; [lia|]. split; [reflexivity|]. split; [lia|].
    split; [intros steps' [=] | intros e' [=]].
Qed.

(** X13. Without the bus nothing runs. With a subcommand on the command
    line, known or not, a bus that cannot be opened makes the program end
    on the exception with exit status 1, after the one attempt to open the
    bus and before anything else; and a missing smbus module makes it end
    on [RuntimeError] before any access to the bus. *)
Theorem X13_no_bus_is_fatal
  (env : Env) (a0 a1 : string) (args : list string) (w : World) :
  (smbus_present env = true -> bus_opens env = false ->
   main py_float env (a0 :: a1 :: args) w =
     (Some (Raised OSError), emit (EvBusOpen I2C_BUS false) w) /\
   exit_status (Raised OSError) = 1) /\
  (smbus_present env = false ->
   main py_float env (a0 :: a1 :: args) w = (Some (Raised RuntimeError), w) /\
   exit_status (Raised RuntimeError) = 1).
Proof.
  split.
  - intros Hp Ho. unfold main, FanController_init. rewrite Hp, Ho.
    split; reflexivity.
  - intros Hp. unfold main, FanController_init. rewrite Hp. split; reflexivity.
Qed.

End CommandLine.

(** The theorem on "status", for a state file holding 35 and a sensor at
    62 degrees, with no configuration file and with one that cannot be
    opened. *)
Lemma X12_status_is_read_only_witness :
  (let r := main float_of_decimal (mkEnv true true ConfAbsent tick_ok [])
              ["argononed.py"; "status"]%string (mkWorld (Some "35"%string) []) in
   bus_writes (snd r) = 0%nat /\ state_writes (snd r) = 0%nat /\
   state_file (snd r) = Some "35"%string /\ temp_reads (snd r) = 1%nat) /\
  (let r := main float_of_decimal
              (mkEnv true true (ConfUnreadable OSError) tick_ok [])
              ["argononed.py"; "status"]%string (mkWorld (Some "35"%string) []) in
   fst r = Some (Raised OSError) /\
   events (snd r) = [] ++ [EvBusOpen I2C_BUS true; EvTempRead; EvBusClose]).
Proof.
  cbv zeta. split.
  - destruct (X12_status_is_read_only float_of_decimal
                (mkEnv true true ConfAbsent tick_ok []) "argononed.py"%string
                "status"%string [] (mkWorld (Some "35"%string) [])
                eq_refl eq_refl eq_refl eq_refl) as (A & B & C & D & _).
    split; [exact A|]. split; [exact B|]. split; [exact C | exact D].
  - destruct (X12_status_is_read_only float_of_decimal
                (mkEnv true true (ConfUnreadable OSError) tick_ok [])
                "argononed.py"%string
                "status"%string [] (mkWorld (Some "35"%string) [])
                eq_refl eq_refl eq_refl eq_refl) as (_ & _ & _ & _ & _ & F).
    apply (F OSError). reflexivity.
Defined.

(** The theorem on the unknown subcommand "bogus" with a bus that does not
    open, and on FANON with no smbus module. *)
Lemma X13_no_bus_is_fatal_witness :
  main float_of_decimal (mkEnv true false ConfAbsent tick_ok [])
    ["argononed.py"; "bogus"]%string empty_world =
    (Some (Raised OSError), mkWorld None [EvBusOpen 1 false]) /\
  main float_of_decimal (mkEnv false true ConfAbsent tick_ok [])
    ["argononed.py"; "FANON"]%string empty_world =
    (Some (Raised RuntimeError), empty_world).
Proof.
  split.
  - apply (proj1 (X13_no_bus_is_fatal float_of_decimal
                    (mkEnv true false ConfAbsent tick_ok []) "argononed.py"%string
                    "bogus"%string [] empty_world)); reflexivity.
  - apply (proj2 (X13_no_bus_is_fatal float_of_decimal
                    (mkEnv false true ConfAbsent tick_ok []) "argononed.py"%string
                    "FANON"%string [] empty_world)); reflexivity.
Defined.

(** ** The order of steps with the same threshold *)

Lemma Qeq_bool_after (x y t : Q) :
  Qle_bool x y = false -> Qeq_bool y t = true -> Qeq_bool x t = false.
Proof.
  intros Hlt He. apply Qle_bool_false in Hlt. apply Qeq_bool_iff in He.
  destruct (Qeq_bool x t) eqn:E; [|reflexivity].
  apply Qeq_bool_iff in E. exfalso. rewrite E, <- He in Hlt.
  apply (Qlt_irrefl y), Hlt.
Qed.

Lemma insert_step_at_temp (t : Q) (x : Step) (l : list Step) :
  at_temp t (insert_step x l) = at_temp t (x :: l).
Proof.
  unfold at_temp. induction l as [|y l IH]; [reflexivity|].
  cbn [insert_step].
  destruct (Qle_bool (temp_c x) (temp_c y)) eqn:E; [reflexivity|].
  cbn [filter] in IH |- *. rewrite IH.
  destruct (Qeq_bool (temp_c y) t) eqn:Ey; [|reflexivity].
  rewrite (Qeq_bool_after _ _ _ E Ey). reflexivity.
Qed.

Lemma sort_steps_at_temp (t : Q) (l : list Step) :
  at_temp t (sort_steps l) = at_temp t l.
Proof.
  induction l as [|x l IH]; [reflexivity|].
  cbn [sort_steps fold_right]. rewrite insert_step_at_temp.
  unfold at_temp in *. cbn [filter]. fold (sort_steps l). rewrite IH. reflexivity.
Qed.

(** X14. The sort of [parse_conf] is stable: for a file read as ASCII
    lines whose thresholds are all finite, the steps of the table that have
    a given threshold are those of the valid lines with that threshold, in
    the order of the file. *)
Theorem X14_parse_conf_sort_is_stable
  (py_float : string -> option pyfloat) (lines : list string)
  (steps : list Step) (t : Q) :
  Forall (fun l => is_ascii l = true) lines ->
  parse_lines py_float lines = Some steps ->
  exists table,
    parse_conf py_float (ConfLines lines) = Some (Returned table) /\
    at_temp t table = at_temp t steps.
Proof.
  intros _ H. exists (sort_steps steps). cbn [parse_conf]. rewrite H.
  split; [reflexivity | apply sort_steps_at_temp].
Qed.

(** The theorem on a file with two steps at 50 degrees, 35 before 40. *)
Lemma X14_parse_conf_sort_is_stable_witness :
  exists table,
    parse_conf float_of_decimal
      (ConfLines ["50=35"; "45=20"; "50.0=40"]%string) = Some (Returned table) /\
    at_temp 50 table = at_temp 50 [mkStep 50 35; mkStep 45 20; mkStep (500 # 10) 40].
Proof.
  apply (X14_parse_conf_sort_is_stable float_of_decimal
           ["50=35"; "45=20"; "50.0=40"]%string
           [mkStep 50 35; mkStep 45 20; mkStep (500 # 10) 40] 50).
  - repeat (constructor; [reflexivity|]). constructor.
  - reflexivity.
Defined.

(** ** FANSPEED run twice *)

Section Fanspeed.

Variable py_float : string -> option pyfloat.

(** What FANSPEED does when the bus opens and the value reads as [n]. *)
Lemma main_fanspeed (env : Env) (a0 a1 arg : string) (rest : list string)
  (n : Z) (w : World) :
  upper a1 = "FANSPEED"%string -> Py.int arg = Some n ->
  smbus_present env = true -> bus_opens env = true ->
  main py_float env (a0 :: a1 :: arg :: rest) w =
    match set_speed (hw_ok (shot env)) (fs_how (shot env)) n
            (mkFan (read_state w)) (emit (EvBusOpen I2C_BUS true) w) with
    | (Returned _, _, w') => (Some (Returned 0), close w')
    | (Raised e, _, w') => (Some (Raised e), close w')
    end.
Proof.
  intros Hc Hn Hp Ho. unfold main, FanController_init.
  rewrite Hc, Hp, Ho. cbn [negb]. unfold dispatch.
  cbn [String.eqb Ascii.eqb Bool.eqb andb]. rewrite Hn.
  change (read_state (emit (EvBusOpen I2C_BUS true) w)) with (read_state w).
  destruct (set_speed _ _ n _ _) as [[[u|e] fan'] w']; reflexivity.
Qed.

(** X16. FANSPEED run twice with the same value, on a bus that works and
    a state file that can be written (and holds ASCII text, if any, at the
    start): after the first run, which makes at
    most one bus write, the state file reads as the clamped value; the
    second run returns 0, makes no bus write and no state write and leaves
    the state file as it is. *)
Theorem X16_fanspeed_twice (env : Env) (a0 a1 arg : string) (rest : list string)
  (n : Z) (w : World) :
  upper a1 = "FANSPEED"%string -> Py.int arg = Some n ->
  ascii_state w = true ->
  smbus_present env = true -> bus_opens env = true ->
  hw_ok (shot env) = true -> fs_how (shot env) = FsOk ->
  let r1 := main py_float env (a0 :: a1 :: arg :: rest) w in
  let r2 := main py_float env (a0 :: a1 :: arg :: rest) (snd r1) in
  read_state (snd r1) = Some (clamp n) /\
  (bus_writes (snd r1) <= S (bus_writes w))%nat /\
  fst r2 = Some (Returned 0) /\
  bus_writes (snd r2) = bus_writes (snd r1) /\
  state_writes (snd r2) = state_writes (snd r1) /\
  state_file (snd r2) = state_file (snd r1).
Proof.
  intros Hc Hn _ Hp Ho Hh Hf r1 r2.
  assert (A : read_state (snd r1) = Some (clamp n) /\
              (bus_writes (snd r1) <= S (bus_writes w))%nat).
  { unfold r1. rewrite (main_fanspeed env a0 a1 arg rest n w Hc Hn Hp Ho).
    rewrite Hh, Hf.
    destruct (set_speed_cases true FsOk n (mkFan (read_state w))
                (emit (EvBusOpen I2C_BUS true) w))
      as [(Hl & ->) | [(_ & _ & ->) | (_ & [=] & _)]]; cbn [fst snd].
    - split; [exact Hl|].
      unfold close. rewrite !bus_writes_emit_other by reflexivity. lia.
    - split.
      + unfold read_state. cbn [close write_state emit state_file].
        rewrite strip_no_space by apply no_space_str.
        apply py_int_str, clamp_text_short.
      + unfold close. rewrite bus_writes_emit_other by reflexivity.
        rewrite bus_writes_emit_other by reflexivity.
        rewrite bus_writes_write_state, bus_writes_emit.
        rewrite bus_writes_emit_other by reflexivity.
        cbn [is_bus_write]. lia. }
  destruct A as (A2 & A3).
  split; [exact A2|]. split; [exact A3|].
  unfold r2. rewrite (main_fanspeed env a0 a1 arg rest n (snd r1) Hc Hn Hp Ho).
  rewrite A2, (set_speed_same _ _ n (mkFan (Some (clamp n))) _ eq_refl).
  cbn [fst snd]. split; [reflexivity|].
  unfold close. rewrite !bus_writes_emit_other by reflexivity.
  rewrite !state_writes_emit. cbn [is_state_write].
  split; [reflexivity|]. split; [lia | reflexivity].
Qed.

End Fanspeed.

(** The theorem for "fanspeed 130" on a world with no state file. *)
Lemma X16_fanspeed_twice_witness :
  let env := mkEnv true true ConfAbsent tick_ok [] in
  let argv := ["argononed.py"; "fanspeed"; "130"]%string in
  let r1 := main float_of_decimal env argv empty_world in
  let r2 := main float_of_decimal env argv (snd r1) in
  read_state (snd r1) = Some (clamp 130) /\
  (bus_writes (snd r1) <= S (bus_writes empty_world))%nat /\
  fst r2 = Some (Returned 0) /\
  bus_writes (snd r2) = bus_writes (snd r1) /\
  state_writes (snd r2) = state_writes (snd r1) /\
  state_file (snd r2) = state_file (snd r1).
Proof.
  cbv zeta.
  apply (X16_fanspeed_twice float_of_decimal (mkEnv true true ConfAbsent tick_ok [])
           "argononed.py"%string "fanspeed"%string "130"%string [] 130
           empty_world); reflexivity.
Defined.
